(** * dclab: the RT-DC writer ([dclab/rtdc_dataset/writer.py])

    A shallow embedding of [RTDCWriter] and the properties of its write
    paths.  The writer is a thin layer over an HDF5 container: the
    container is modelled as a tree of named groups and datasets, every
    writer method as a computation on that tree which either returns or
    raises, and the state reached when a method raises is kept (HDF5
    writes are not rolled back). *)

From stdpp Require Import gmap strings list fin_maps pretty.
From Stdlib Require Import ZArith NArith Lia.
From Stdlib.Strings Require Import Ascii Byte.

#[local] Set Warnings "-register-all,-clear-no-such-hyp".
#[local] Open Scope nat_scope.

(** ** Exceptions and the state-and-exception monad *)

(** Errors of the storage engine (h5py), kept apart from the errors the
    writer raises itself. *)
Inductive engine_error :=
  | NameAlreadyExists      (* create_dataset on a name that is taken *)
  | IncompatibleObject     (* require_group on a dataset, group[name] of the wrong kind *)
  | RankMismatch           (* chunks or maxshape of another rank than shape *)
  | InvalidChunks          (* no chunk dimension, or a chunk dimension of zero *)
  | CannotBroadcast        (* value shape cannot be broadcast to the selection *)
  | NoConversionPath       (* no conversion from the dtype of the value to that of the dataset *)
  | CannotResize           (* resize beyond maxshape *)
  | IndexOutOfRange.

Inductive error :=
  | UndefinedFeature (feat : string)                (* writer.py:53 *)
  | UnknownTraceKey (tr_name : string)              (* writer.py:80 *)
  | NoRuleToStore (feat : string)                   (* writer.py:87 *)
  | SectionNotDefined (sec : string)                (* writer.py:141 *)
  | KeyNotDefined (sec ck : string)                 (* writer.py:145 *)
  | ConversionFailed (sec ck : string)              (* convfunc raised, writer.py:181-182 *)
  | UnicodeError                                    (* str.encode / bytes.decode raised *)
  | UnsizedObject                                   (* len() or shape[0] of a 0-d array *)
  | WrongArgumentType                               (* data without the operations a branch uses *)
  | Engine (e : engine_error).

Inductive result (A : Type) :=
  | Ok (a : A)
  | Raise (e : error).
Arguments Ok {A} a.
Arguments Raise {A} e.

(** A method running on a store [S]: the store it leaves and what it
    returned or raised. *)
Definition M (S A : Type) : Type := S → S * result A.

Definition ret {S A} (a : A) : M S A := λ s, (s, Ok a).
Definition raise {S A} (e : error) : M S A := λ s, (s, Raise e).
Definition bind {S A B} (m : M S A) (k : A → M S B) : M S B :=
  λ s, match m s with
       | (s', Ok a) => k a s'
       | (s', Raise e) => (s', Raise e)
       end.
Definition gets {S A} (f : S → A) : M S A := λ s, (s, Ok (f s)).
Definition modify {S} (f : S → S) : M S unit := λ s, (f s, Ok tt).
Definition lift_result {S A} (r : result A) : M S A := λ s, (s, r).

Notation "'let*' x := m 'in' k" := (bind m (λ x, k))
  (at level 10, x name, m at level 200, k at level 200, only parsing).
Notation "'let*' ' p := m 'in' k" := (bind m (λ p, k))
  (at level 10, p strict pattern, m at level 200, k at level 200, only parsing).
Notation "m ;;; k" := (bind m (λ _, k))
  (at level 100, right associativity, only parsing).

(** [for x in l: body(x)] *)
Fixpoint for_ {S A} (l : list A) (body : A → M S unit) : M S unit :=
  match l with
  | [] => ret tt
  | x :: l' => body x ;;; for_ l' body
  end.

(** ** numpy arrays *)

(** Element types the writer distinguishes: [np.bool] is tested for and
    [np.uint8] is produced by [write_image_grayscale]; every other dtype
    is only passed through. *)
Inductive np_dtype :=
  | np_bool
  | np_uint8
  | np_other (name : string).

#[global] Instance np_dtype_eq_dec : EqDecision np_dtype.
Proof. solve_decision. Defined.

(** An n-dimensional array in row-major order.  Elements are integers;
    a boolean array holds 0 for [False] and 1 for [True]. *)
Record ndarray := NDArray {
  dtype : np_dtype;
  shape : list nat;
  flat : list Z
}.

Definition prod_list (l : list nat) : nat := foldr Nat.mul 1 l.

(** Number of elements of one event (one index of the first axis). *)
Definition row_size (sh : list nat) : nat := prod_list (tail sh).

Definition wf_ndarray (a : ndarray) : Prop :=
  length (flat a) = prod_list (shape a).

(** [len(a)] and [a.shape[0]]: both raise on a 0-d array. *)
Definition len {S} (a : ndarray) : M S nat :=
  match shape a with
  | [] => raise UnsizedObject
  | n :: _ => ret n
  end.

(** [a[start:stop]] along the first axis, bounds clipped as Python does. *)
Definition slice (a : ndarray) (start stop : nat) : ndarray :=
  let n := hd 0 (shape a) in
  let lo := start `min` n in
  let hi := stop `min` n in
  {| dtype := dtype a;
     shape := (hi - lo) :: tail (shape a);
     flat := take ((hi - lo) * row_size (shape a))
                  (drop (lo * row_size (shape a)) (flat a)) |}.

Definition np_atleast_1d (a : ndarray) : ndarray :=
  match shape a with
  | [] => {| dtype := dtype a; shape := [1]; flat := flat a |}
  | _ => a
  end.

Definition np_atleast_2d (a : ndarray) : ndarray :=
  match shape a with
  | [] => {| dtype := dtype a; shape := [1; 1]; flat := flat a |}
  | [n] => {| dtype := dtype a; shape := [1; n]; flat := flat a |}
  | _ => a
  end.

Definition reshape (a : ndarray) (sh : list nat) : ndarray :=
  {| dtype := dtype a; shape := sh; flat := flat a |}.

(** ** The storage engine: groups and datasets *)

Inductive chunking :=
  | ChunksAuto                       (* chunks=True *)
  | ChunkShape (c : list nat).

(** A numeric dataset, with the creation properties the writer sets.
    Its elements are of the dtype of the dataset: what is written is
    converted to it ([h5_convert] below). *)
Record dataset := Dataset {
  ds_dtype : np_dtype;
  ds_shape : list nat;
  ds_maxshape : list (option nat);
  ds_chunks : chunking;
  ds_fletcher32 : bool;
  ds_compression : option string;
  ds_flat : list Z;
  ds_attrs : gmap string string
}.

(** A dataset of fixed-width byte strings (dtype [S<width>]), one per
    line; every stored line holds exactly [td_width] bytes. *)
Record text_dataset := TextDataset {
  td_width : nat;
  td_maxshape : option nat;
  td_chunks : chunking;
  td_fletcher32 : bool;
  td_compression : option string;
  td_lines : list (list byte)
}.

Inductive node :=
  | NDataset (d : dataset)
  | NText (t : text_dataset)
  | NGroup (members : gmap string node).

(** The members of a group, by link name.  Every name the writer passes
    is read as the name of one link of the group; h5py reads a name with
    ["/"] as a path (see [link_name] below). *)
Abbreviation group := (gmap string node).

Definition set_flat (d : dataset) (f : list Z) : dataset :=
  {| ds_dtype := ds_dtype d; ds_shape := ds_shape d;
     ds_maxshape := ds_maxshape d; ds_chunks := ds_chunks d;
     ds_fletcher32 := ds_fletcher32 d; ds_compression := ds_compression d;
     ds_flat := f; ds_attrs := ds_attrs d |}.

Definition set_attr (d : dataset) (k v : string) : dataset :=
  {| ds_dtype := ds_dtype d; ds_shape := ds_shape d;
     ds_maxshape := ds_maxshape d; ds_chunks := ds_chunks d;
     ds_fletcher32 := ds_fletcher32 d; ds_compression := ds_compression d;
     ds_flat := ds_flat d; ds_attrs := <[k := v]> (ds_attrs d) |}.

(** [name in group] *)
Definition contains (name : string) : M group bool :=
  gets (λ g, bool_decide (is_Some (g !! name))).

(** [del group[name]] *)
Definition del (name : string) : M group unit :=
  modify (delete name).

(** [group.require_group(name)]: the group is created when it is absent;
    a dataset of that name is an error.  The rest of the method then
    works on this group through [in_group]. *)
Definition require_group (name : string) : M group unit :=
  λ g, match g !! name with
       | None => (<[name := NGroup ∅]> g, Ok tt)
       | Some (NGroup _) => (g, Ok tt)
       | Some _ => (g, Raise (Engine IncompatibleObject))
       end.

(** Run a method on the group stored under [name]; what it did to that
    group is visible in the parent afterwards, also when it raised. *)
Definition in_group {A} (name : string) (m : M group A) : M group A :=
  λ g, match g !! name with
       | Some (NGroup sub) =>
           let '(sub', r) := m sub in (<[name := NGroup sub']> g, r)
       | _ => (g, Raise (Engine IncompatibleObject))
       end.

(** [group[name]] used as a numeric dataset.  The model covers a name
    that holds a numeric dataset; a name that holds text, which is a
    dataset for h5py too, is reported as an error before any change. *)
Definition get_dataset (name : string) : M group dataset :=
  λ g, match g !! name with
       | Some (NDataset d) => (g, Ok d)
       | _ => (g, Raise (Engine IncompatibleObject))
       end.

(** The chunk shapes HDF5 takes: at least one dimension, none of them
    zero. *)
Definition valid_chunks (chunks : list nat) : Prop :=
  chunks ≠ [] ∧ Forall (λ c, 0 < c) chunks.

#[global] Instance valid_chunks_dec chunks : Decision (valid_chunks chunks).
Proof. unfold valid_chunks. apply _. Defined.

(** [group.create_dataset(name, shape=..., dtype=..., maxshape=...,
    chunks=..., fletcher32=..., compression=...)]: a dataset filled with
    zeros.  The engine refuses chunk or maximal shapes of the wrong rank,
    chunks that are not valid, and a name that is taken; its checks of
    dtypes and filters are not modelled. *)
Definition create_dataset (name : string) (sh : list nat) (dt : np_dtype)
    (maxshape : list (option nat)) (chunks : list nat)
    (fletcher32 : bool) (compression : option string) : M group unit :=
  λ g, if negb (bool_decide (length maxshape = length sh
                             ∧ length chunks = length sh)) then
         (g, Raise (Engine RankMismatch))
       else if negb (bool_decide (valid_chunks chunks)) then
         (g, Raise (Engine InvalidChunks))
       else if bool_decide (is_Some (g !! name)) then
         (g, Raise (Engine NameAlreadyExists))
       else
         (<[name := NDataset
              {| ds_dtype := dt; ds_shape := sh; ds_maxshape := maxshape;
                 ds_chunks := ChunkShape chunks; ds_fletcher32 := fletcher32;
                 ds_compression := compression;
                 ds_flat := replicate (prod_list sh) 0%Z;
                 ds_attrs := ∅ |}]> g, Ok tt).

(** [group.create_dataset(name, data=cc, chunks=..., ...)]: a dataset of
    the shape and contents of [cc], not resizable. *)
Definition create_dataset_from (name : string) (cc : ndarray) (chunks : list nat)
    (fletcher32 : bool) (compression : option string) : M group unit :=
  λ g, if negb (bool_decide (length chunks = length (shape cc))) then
         (g, Raise (Engine RankMismatch))
       else if negb (bool_decide (valid_chunks chunks)) then
         (g, Raise (Engine InvalidChunks))
       else if bool_decide (is_Some (g !! name)) then
         (g, Raise (Engine NameAlreadyExists))
       else
         (<[name := NDataset
              {| ds_dtype := dtype cc; ds_shape := shape cc;
                 ds_maxshape := Some <$> shape cc;
                 ds_chunks := ChunkShape chunks; ds_fletcher32 := fletcher32;
                 ds_compression := compression;
                 ds_flat := flat cc;
                 ds_attrs := ∅ |}]> g, Ok tt).

(** [dset.resize(n, axis=0)]: the first [n] events are kept and new
    events are zero; refused when the first axis has a smaller limit. *)
Definition resize_dataset (d : dataset) (n : nat) : result dataset :=
  match ds_shape d, ds_maxshape d with
  | _ :: trailing, lim :: _ =>
      if match lim with None => true | Some m => bool_decide (n ≤ m) end then
        Ok {| ds_dtype := ds_dtype d; ds_shape := n :: trailing;
              ds_maxshape := ds_maxshape d; ds_chunks := ds_chunks d;
              ds_fletcher32 := ds_fletcher32 d;
              ds_compression := ds_compression d;
              ds_flat := take (n * prod_list trailing)
                           (ds_flat d ++ replicate (n * prod_list trailing) 0%Z);
              ds_attrs := ds_attrs d |}
      else Raise (Engine CannotResize)
  | _, _ => Raise (Engine CannotResize)
  end.

(** *** Conversion of the elements

    HDF5 converts the elements of a value to the dtype of the dataset.
    Between the integer dtypes it clips to the range of the dataset's
    dtype; an integer written to [float64] becomes the nearest number
    of 53 significant bits, ties to even; [float64] written to an
    integer dtype is clipped (the elements of the model are whole
    numbers).  Elements of the dtype of the dataset are stored as they
    are.  Conversions that involve any other dtype ([np.bool], which
    h5py stores as an enumeration, [float32], strings) are outside this
    model, which reports them as the engine's error for a missing
    conversion. *)

Inductive numeric_kind :=
  | Integer (lo hi : Z)
  | Floating (digits : Z).

Definition kind_of (dt : np_dtype) : option numeric_kind :=
  match dt with
  | np_bool => None
  | np_uint8 => Some (Integer 0 255)
  | np_other name =>
      if bool_decide (name = "int8") then Some (Integer (-128) 127)
      else if bool_decide (name = "int16") then Some (Integer (-32768) 32767)
      else if bool_decide (name = "int32") then
        Some (Integer (-2147483648) 2147483647)
      else if bool_decide (name = "int64") then
        Some (Integer (-9223372036854775808) 9223372036854775807)
      else if bool_decide (name = "uint8") then Some (Integer 0 255)
      else if bool_decide (name = "uint16") then Some (Integer 0 65535)
      else if bool_decide (name = "uint32") then Some (Integer 0 4294967295)
      else if bool_decide (name = "uint64") then
        Some (Integer 0 18446744073709551615)
      else if bool_decide (name = "float64") then Some (Floating 53)
      else None
  end%Z.

Definition clip (lo hi v : Z) : Z := (lo `max` (v `min` hi))%Z.

(** The nearest whole number of at most [digits] significant bits, ties
    to the even one. *)
Definition round_to (digits v : Z) : Z :=
  let m := Z.abs v in
  let drop := (Z.log2 m + 1 - digits)%Z in
  if (drop <=? 0)%Z then v
  else
    let q := Z.shiftr m drop in
    let r := Z.land m (Z.ones drop) in
    let half := Z.shiftl 1 (drop - 1) in
    let up := (half <? r)%Z || ((r =? half)%Z && Z.odd q) in
    (Z.sgn v * Z.shiftl (if up then q + 1 else q) drop)%Z.

Definition h5_convert (src dst : np_dtype) : option (Z → Z) :=
  if bool_decide (src = dst) then Some id
  else match kind_of src, kind_of dst with
       | Some _, Some (Integer lo hi) => Some (clip lo hi)
       | Some _, Some (Floating digits) => Some (round_to digits)
       | _, _ => None
       end.

(** *** Broadcasting

    h5py broadcasts a value to the selection it is assigned to
    ([Selection.expand_shape] and [Selection.broadcast]).  From the last
    axis to the first, an axis of the value must have the length of the
    axis of the selection, or length 1; axes the value does not have
    count as axes of length 1; axes the value has in excess must have
    length 1.  The value is then repeated along the axes of length 1.
    (h5py also lets an excess axis of length 0 pass and then writes from
    an empty buffer; the model refuses it.) *)

(** The expanded shape, with both shapes given from the last axis to the
    first. *)
Fixpoint expand_rev (count src : list nat) : option (list nat) :=
  match count with
  | [] => if bool_decide (Forall (λ t, t = 1) src) then Some [] else None
  | c :: count' =>
      match src with
      | [] => (1 ::.) <$> expand_rev count' []
      | t :: src' =>
          if bool_decide (t = 1 ∨ t = c)
          then (t ::.) <$> expand_rev count' src'
          else None
      end
  end.

Definition expand_shape (count src : list nat) : option (list nat) :=
  reverse <$> expand_rev (reverse count) (reverse src).

(** The elements of an array of shape [eshape], repeated to fill the
    shape [count], in row-major order. *)
Fixpoint tile (eshape count : list nat) (l : list Z) : list Z :=
  match eshape, count with
  | t :: eshape', c :: count' =>
      let row := prod_list eshape' in
      if bool_decide (t = c) then
        concat ((λ i, tile eshape' count' (take row (drop (i * row) l)))
                  <$> seq 0 t)
      else
        concat (replicate c (tile eshape' count' (take row l)))
  | _, _ => l
  end.

(** The elements written to a selection of shape [count]: those of the
    value when it has that shape, the value repeated when it can be
    broadcast. *)
Definition broadcast (count : list nat) (value : ndarray)
    : option (list Z) :=
  if bool_decide (shape value = count) then Some (flat value)
  else (λ eshape, tile eshape count (flat value))
         <$> expand_shape count (shape value).

(** [dset[start:stop] = value] on the first axis.  The selection is
    clipped to the dataset; an empty selection is a no-op; otherwise the
    value is broadcast to the selection and its elements are converted
    to the dtype of the dataset. *)
Definition assign_rows (d : dataset) (start stop : nat) (value : ndarray)
    : result dataset :=
  let n := hd 0 (ds_shape d) in
  let lo := start `min` n in
  let hi := stop `min` n in
  let rs := row_size (ds_shape d) in
  if bool_decide ((hi - lo) * rs = 0) then Ok d
  else
    match broadcast ((hi - lo) :: tail (ds_shape d)) value with
    | None => Raise (Engine CannotBroadcast)
    | Some elements =>
        match h5_convert (dtype value) (ds_dtype d) with
        | None => Raise (Engine NoConversionPath)
        | Some convert =>
            Ok (set_flat d (take (lo * rs) (ds_flat d)
                            ++ (convert <$> elements)
                            ++ drop (hi * rs) (ds_flat d)))
        end
    end.

(** The same operations on a dataset of a group, as the writer uses
    them through the handle [dset = group[name]]. *)
Definition resize (name : string) (n : nat) : M group unit :=
  let* d := get_dataset name in
  let* d' := lift_result (resize_dataset d n) in
  modify (<[name := NDataset d']>).

(** [dset[start:stop] = value]; [stop = None] is [dset[start:]]. *)
Definition setitem_rows (name : string) (start : nat) (stop : option nat)
    (value : ndarray) : M group unit :=
  let* d := get_dataset name in
  let* d' := lift_result
         (assign_rows d start (default (hd 0 (ds_shape d)) stop) value) in
  modify (<[name := NDataset d']>).

(** [dset.attrs.create(k, v)] *)
Definition attrs_create (name : string) (k v : string) : M group unit :=
  let* d := get_dataset name in
  modify (<[name := NDataset (set_attr d k v)]>).

(** ** The writer *)

(** Chunk size for storing HDF5 data (writer.py:11). *)
Definition CHUNK_SIZE : nat := 100.

Inductive write_mode := append | replace | reset.

#[global] Instance write_mode_eq_dec : EqDecision write_mode.
Proof. solve_decision. Defined.

Record RTDCWriter := {
  mode : write_mode;
  compression : option string
}.

(** *** [write_ndarray] (writer.py:206-246) *)

(** Lines 213-228: the dataset is created with the shape of the data, or
    an existing one grows by the events of the data; the result is the
    offset of the new events. *)
Definition open_dataset (self : RTDCWriter) (name : string) (data : ndarray)
    (dt : option np_dtype) : M group nat :=
  let* present := contains name in
  if negb present then
    let maxshape := None :: (Some <$> tail (shape data)) in
    let chunks := CHUNK_SIZE :: tail (shape data) in
    create_dataset name (shape data) (default (dtype data) dt)
      maxshape chunks true (compression self);;;
    ret 0
  else
    let* dset := get_dataset name in
    let* offset := match ds_shape dset with
                   | [] => raise UnsizedObject
                   | n :: _ => ret n
                   end in
    let* n := len data in
    resize name (offset + n);;;
    ret offset.

(** Lines 233-245: the events are copied in blocks of [chunk] events,
    then the remainder. *)
Definition write_chunked (chunk : nat) (name : string) (offset : nat)
    (data : ndarray) : M group unit :=
  let* n := len data in
  let num_chunks := n / chunk in
  for_ (seq 0 num_chunks) (λ ii,
    let start := ii * chunk in
    let stop := start + chunk in
    setitem_rows name (offset + start) (Some (offset + stop))
      (slice data start stop));;;
  let num_remain := n `mod` chunk in
  if bool_decide (num_remain ≠ 0) then
    let start_e := num_chunks * chunk in
    let stop_e := start_e + num_remain in
    setitem_rows name (offset + start_e) (Some (offset + stop_e))
      (slice data start_e stop_e)
  else ret tt.

Definition write_ndarray (self : RTDCWriter) (name : string) (data : ndarray)
    (dt : option np_dtype) : M group unit :=
  let* offset := open_dataset self name data dt in
  if bool_decide (length (shape data) = 1) then
    (* store scalar data in one go *)
    setitem_rows name offset None data
  else
    (* populate higher-dimensional data in chunks *)
    write_chunked CHUNK_SIZE name offset data.

(** The reference the chunked copy is compared with: the same dataset
    and offset, and the whole new slice written by one assignment
    [dset[offset:] = data]. *)
Definition write_ndarray_bulk (self : RTDCWriter) (name : string)
    (data : ndarray) (dt : option np_dtype) : M group unit :=
  let* offset := open_dataset self name data dt in
  setitem_rows name offset None data.

(** *** [write_image_grayscale] (writer.py:184-204) *)

(** [np.asarray(data, dtype=np.uint8) * 255]: [False], [True] become 0, 1
    and the product is taken in 8 bits. *)
Definition bool_to_uint8 (data : ndarray) : ndarray :=
  {| dtype := np_uint8; shape := shape data;
     flat := (λ v, (v * 255) `mod` 256)%Z <$> flat data |}.

(** Lines 187-194: the data as a batch of frames, masks as [uint8]. *)
Definition image_batch (data : ndarray) : ndarray :=
  let data := np_atleast_2d data in
  let data := match shape data with
              | [s0; s1] => reshape data [1; s0; s1]
              | _ => data
              end in
  if bool_decide (dtype data = np_bool) then bool_to_uint8 data else data.

Definition write_image_grayscale (self : RTDCWriter) (name : string)
    (data : ndarray) : M group unit :=
  let data := image_batch data in
  write_ndarray self name data None;;;
  attrs_create name "CLASS" "IMAGE";;;
  attrs_create name "IMAGE_VERSION" "1.2";;;
  attrs_create name "IMAGE_SUBCLASS" "IMAGE_GRAYSCALE".

(** *** [write_ragged] (writer.py:248-264) *)

(** The data a caller hands to [store_feature]: an array, a list (or
    tuple) of arrays, or a dictionary of arrays by trace name. *)
Inductive feature_data :=
  | Array (a : ndarray)
  | ArrayList (l : list ndarray)
  | TraceDict (d : list (string * ndarray)).

(** [enumerate(l)] *)
Definition enumerate {A} (l : list A) : list (nat * A) := imap pair l.

(** Lines 254-256; a dictionary is no list of arrays: its [.shape]
    raises. *)
Definition ragged_events (data : feature_data) : result (list ndarray) :=
  match data with
  | ArrayList l => Ok l
  | Array a => Ok [a]
  | TraceDict _ => Raise WrongArgumentType
  end.

Definition write_ragged (self : RTDCWriter) (name : string)
    (data : feature_data) : M group unit :=
  require_group name;;;
  in_group name (
    let* curid := gets (λ grp : group, size grp) in
    let* events := lift_result (ragged_events data) in
    for_ (enumerate events) (λ '(ii, cc),
      create_dataset_from (pretty (curid + ii)) cc (shape cc) true
        (compression self))).

(** *** [write_text] (writer.py:266-326) *)

(** A line of text: a [str], as its code points, or [bytes]. *)
Inductive line :=
  | Str (s : list N)
  | Bytes (b : list byte).

(** The argument [lines]: one [str] or [bytes], or a list of them. *)
Inductive text_lines :=
  | OneLine (l : line)
  | Lines (ls : list line).

Definition byte_of_N (n : N) : byte := default x00 (Byte.of_N n).

(** [chr(c).encode("UTF-8")]; surrogates cannot be encoded. *)
Definition utf8_encode_char (c : N) : option (list byte) :=
  if (c <? 0x80)%N then Some [byte_of_N c]
  else if (c <? 0x800)%N then
    Some [byte_of_N (N.lor 0xC0 (N.shiftr c 6));
          byte_of_N (N.lor 0x80 (N.land c 0x3F))]
  else if (c <? 0x10000)%N then
    if ((0xD800 <=? c) && (c <=? 0xDFFF))%N then None
    else
      Some [byte_of_N (N.lor 0xE0 (N.shiftr c 12));
            byte_of_N (N.lor 0x80 (N.land (N.shiftr c 6) 0x3F));
            byte_of_N (N.lor 0x80 (N.land c 0x3F))]
  else if (c <? 0x110000)%N then
    Some [byte_of_N (N.lor 0xF0 (N.shiftr c 18));
          byte_of_N (N.lor 0x80 (N.land (N.shiftr c 12) 0x3F));
          byte_of_N (N.lor 0x80 (N.land (N.shiftr c 6) 0x3F));
          byte_of_N (N.lor 0x80 (N.land c 0x3F))]
  else None.

(** [s.encode("UTF-8")] *)
Fixpoint utf8_encode (s : list N) : option (list byte) :=
  match s with
  | [] => Some []
  | c :: s' =>
      match utf8_encode_char c, utf8_encode s' with
      | Some b, Some bs => Some (b ++ bs)
      | _, _ => None
      end
  end.

(** Lines 299-302: a line as bytes. *)
Definition line_bytes (l : line) : result (list byte) :=
  match l with
  | Bytes b => Ok b
  | Str s => match utf8_encode s with
             | Some b => Ok b
             | None => Raise UnicodeError
             end
  end.

(** Lines 295-304: the lines as bytes and the maximal length, from the
    running values [max_length] and [lines_as_bytes]. *)
Fixpoint encode_lines (max_length : nat) (lines_as_bytes : list (list byte))
    (lines : list line) : result (nat * list (list byte)) :=
  match lines with
  | [] => Ok (max_length, lines_as_bytes)
  | l :: lines' =>
      match line_bytes l with
      | Ok lbytes =>
          encode_lines (max_length `max` length lbytes)
            (lines_as_bytes ++ [lbytes]) lines'
      | Raise e => Raise e
      end
  end.

(** A byte string stored in a field of [w] bytes: cut at [w] bytes,
    padded with zero bytes. *)
Definition fit (w : nat) (b : list byte) : list byte :=
  take w b ++ replicate (w - length b) x00.

(** [group.create_dataset(name, (lnum,), dtype=f"S{w}", maxshape=(None,),
    chunks=True, ...)]: [lnum] empty strings. *)
Definition create_text_dataset (name : string) (lnum w : nat)
    (fletcher32 : bool) (compression : option string) : M group unit :=
  λ g, if bool_decide (is_Some (g !! name)) then
         (g, Raise (Engine NameAlreadyExists))
       else
         (<[name := NText {| td_width := w; td_maxshape := None;
                             td_chunks := ChunksAuto;
                             td_fletcher32 := fletcher32;
                             td_compression := compression;
                             td_lines := replicate lnum (replicate w x00) |}]> g,
          Ok tt).

(** [group[name]] used as a dataset of strings.  The model covers a
    name that holds text; for a name that holds a numeric dataset h5py
    would go on (the dataset is resized, and the assignment of a line
    then fails or converts the line), which is reported here as an error
    before any change. *)
Definition get_text_dataset (name : string) : M group text_dataset :=
  λ g, match g !! name with
       | Some (NText t) => (g, Ok t)
       | _ => (g, Raise (Engine IncompatibleObject))
       end.

Definition set_lines (t : text_dataset) (ls : list (list byte)) : text_dataset :=
  {| td_width := td_width t; td_maxshape := td_maxshape t;
     td_chunks := td_chunks t;
     td_fletcher32 := td_fletcher32 t; td_compression := td_compression t;
     td_lines := ls |}.

(** [txt_dset.resize(n, axis=0)] *)
Definition resize_text (name : string) (n : nat) : M group unit :=
  let* t := get_text_dataset name in
  if match td_maxshape t with None => true | Some m => bool_decide (n ≤ m) end
  then
    modify (<[name := NText (set_lines t
               (take n (td_lines t ++ replicate n (replicate (td_width t) x00))))]>)
  else raise (Engine CannotResize).

(** [txt_dset[i] = lbytes]: the bytes are stored in the fixed width of
    the dataset. *)
Definition setitem_text (name : string) (i : nat) (lbytes : list byte)
    : M group unit :=
  let* t := get_text_dataset name in
  if bool_decide (i < length (td_lines t)) then
    modify (<[name := NText (set_lines t
               (<[i := fit (td_width t) lbytes]> (td_lines t)))]>)
  else raise (Engine IndexOutOfRange).

(** Lines 285-286: one [str] or [bytes] is a list of one line. *)
Definition lines_of (lines : text_lines) : list line :=
  match lines with
  | OneLine l => [l]
  | Lines ls => ls
  end.

Definition write_text (self : RTDCWriter) (name : string)
    (lines : text_lines) : M group unit :=
  (* replace text? *)
  let* present := contains name in
  (if present && bool_decide (mode self = replace) then del name else ret tt);;;
  (* handle strings *)
  let lines := lines_of lines in
  let lnum := length lines in
  let* '(max_length, lines_as_bytes) := lift_result (encode_lines 100 [] lines) in
  let* present := contains name in
  let* line_offset :=
    (if negb present then
       create_text_dataset name lnum max_length true (compression self);;;
       ret 0
     else
       let* txt_dset := get_text_dataset name in
       let line_offset := length (td_lines txt_dset) in
       resize_text name (line_offset + lnum);;;
       ret line_offset) in
  (* Write the text data line-by-line *)
  for_ (enumerate lines_as_bytes) (λ '(ii, lbytes),
    setitem_text name (line_offset + ii) lbytes).

(** ** The container and the definitions of dclab *)

(** A metadata value: text, bytes, or a number. *)
Inductive value :=
  | VStr (s : string)
  | VBytes (b : list byte)
  | VNum (z : Z).

(** The open container: the attributes of its root and the members of
    its root group. *)
Record h5file := H5File {
  attrs : gmap string value;
  root : group
}.

(** A method on the root group, run on the container. *)
Definition on_root {A} (m : M group A) : M h5file A :=
  λ f, let '(g, r) := m (root f) in ({| attrs := attrs f; root := g |}, r).

(** [h5file.attrs[k] = v].  The model stores every value; h5py refuses
    the values it has no HDF5 type for (writer.py:134-136 leaves them to
    the caller), so the properties of the metadata say what the
    container holds where a call returns, not that it returns. *)
Definition attrs_set (k : string) (v : value) : M h5file unit :=
  modify (λ f, {| attrs := <[k := v]> (attrs f); root := root f |}).

(** What the writer uses of [dclab.definitions] and [dclab._version];
    the two modules are no part of [writer.py], so the writer takes
    their contents as an argument. *)
Record definitions := {
  feature_exists : string → bool;
  scalar_feature_exists : string → bool;
  FLUOR_TRACES : list string;
  CFG_METADATA : list string;
  config_key_exists : string → string → bool;
  (* the converter of a key; it can be missing, and it can raise *)
  get_config_value_func : string → string → option (value → option value);
  version : string
}.

(** A Python dictionary with string keys, in insertion order. *)
Abbreviation dict V := (list (string * V)).

Fixpoint dict_get {V} (k : string) (d : dict V) : option V :=
  match d with
  | [] => None
  | (k', v) :: d' => if bool_decide (k' = k) then Some v else dict_get k d'
  end.

(** [k in d] *)
Definition dict_mem {V} (k : string) (d : dict V) : bool :=
  bool_decide (is_Some (dict_get k d)).

(** [d[k] = v]: an existing key keeps its place, a new one comes last. *)
Fixpoint dict_set {V} (k : string) (v : V) (d : dict V) : dict V :=
  match d with
  | [] => [(k, v)]
  | (k', v') :: d' =>
      if bool_decide (k' = k) then (k, v) :: d' else (k', v') :: dict_set k v d'
  end.

(** No key twice, as in every Python dictionary. *)
Definition dict_wf {V} (d : dict V) : Prop := NoDup d.*1.

Definition meta_wf (meta : dict (dict value)) : Prop :=
  dict_wf meta ∧ Forall (λ sd, dict_wf sd.2) meta.

(** [np.asarray] of a list of arrays: arrays of one shape and one dtype
    are stacked along a new first axis, and the empty list is an empty
    array of [float64].  (For arrays of one shape and several dtypes
    numpy takes a common dtype, and what it makes of arrays of several
    shapes depends on its version; both are outside this model.) *)
Definition np_stack (l : list ndarray) : option ndarray :=
  match l with
  | [] => Some {| dtype := np_other "float64"; shape := [0]; flat := [] |}
  | a :: _ =>
      if forallb (λ b, bool_decide (shape b = shape a ∧ dtype b = dtype a)) l
      then Some {| dtype := dtype a; shape := length l :: shape a;
                   flat := concat (flat <$> l) |}
      else None
  end.

(** [data] as an array, for the branches that hand it to [np.atleast_1d]
    or [np.atleast_2d]: an array as it is, a list of arrays stacked.
    What numpy makes of other data (an array of objects, which the
    engine then refuses) is reported here as an error of the argument. *)
Definition as_array {S} (data : feature_data) : M S ndarray :=
  match data with
  | Array a => ret a
  | ArrayList l =>
      match np_stack l with
      | Some a => ret a
      | None => raise WrongArgumentType
      end
  | TraceDict _ => raise WrongArgumentType
  end.

(** [data] as a dictionary ([data.keys()], [data[tr_name]]). *)
Definition as_trace_dict {S} (data : feature_data) : M S (dict ndarray) :=
  match data with
  | TraceDict d => ret d
  | _ => raise WrongArgumentType
  end.

Section Writer.

Context (dfn : definitions).

(** Python's own conversions, used on metadata values: [f"{v}"] and
    [b.decode("utf-8")]. *)
Context (py_format : value → string).
Context (bytes_decode : list byte → option string).

(** *** [store_feature] (writer.py:50-87) *)

(** Lines 57-64: in mode [replace], what is stored under the feature is
    deleted first; for traces, only the traces that are given. *)
Definition replace_feature (self : RTDCWriter) (feat : string)
    (data : feature_data) : M group unit :=
  let* present := contains feat in
  if present && bool_decide (mode self = replace) then
    if bool_decide (feat = "trace") then
      let* traces := as_trace_dict data in
      for_ traces.*1 (λ tr_name,
        in_group feat (
          let* there := contains tr_name in
          if there then del tr_name else ret tt))
    else del feat
  else ret tt.

(** Lines 76-85: the body of the loop over the traces. *)
Definition store_trace (self : RTDCWriter) (tr : string * ndarray)
    : M group unit :=
  let '(tr_name, tr_data) := tr in
  (* verify trace names *)
  if negb (bool_decide (tr_name ∈ FLUOR_TRACES dfn)) then
    raise (UnknownTraceKey tr_name)
  else
    (* write trace *)
    require_group "trace";;;
    in_group "trace" (write_ndarray self tr_name (np_atleast_2d tr_data) None).

(** Lines 66-87: the rule for the kind of the feature. *)
Definition write_feature (self : RTDCWriter) (feat : string)
    (data : feature_data) : M group unit :=
  if scalar_feature_exists dfn feat then
    let* a := as_array data in
    write_ndarray self feat (np_atleast_1d a) None
  else if bool_decide (feat = "contour") then
    write_ragged self feat data
  else if bool_decide (feat ∈ ["image"; "image_bg"; "mask"]) then
    let* a := as_array data in
    write_image_grayscale self feat a
  else if bool_decide (feat = "trace") then
    let* traces := as_trace_dict data in
    for_ traces (store_trace self)
  else raise (NoRuleToStore feat).

Definition store_feature (self : RTDCWriter) (feat : string)
    (data : feature_data) : M h5file unit :=
  if negb (feature_exists dfn feat) then raise (UndefinedFeature feat)
  else on_root (
    require_group "events";;;
    in_group "events" (
      (* replace data? *)
      replace_feature self feat data;;;
      write_feature self feat data)).

(** *** [store_log] (writer.py:89-100) *)

Definition store_log (self : RTDCWriter) (name : string)
    (lines : text_lines) : M h5file unit :=
  on_root (
    require_group "logs";;;
    in_group "logs" (write_text self name lines)).

(** *** [store_metadata] (writer.py:102-182) *)

(** Lines 131-146: every section and key is checked. *)
Definition check_metadata (meta : dict (dict value)) : M h5file unit :=
  for_ meta (λ '(sec, keys),
    if bool_decide (sec = "user") then
      (* user-defined metadata are always written *)
      ret tt
    else if negb (bool_decide (sec ∈ CFG_METADATA dfn)) then
      raise (SectionNotDefined sec)
    else
      for_ keys (λ '(ck, _),
        if negb (config_key_exists dfn sec ck) then raise (KeyNotDefined sec ck)
        else ret tt)).

(** ["setup" in meta and "software version" in meta["setup"]] *)
Definition gives_version (meta : dict (dict value)) : bool :=
  match dict_get "setup" meta with
  | Some setup => dict_mem "software version" setup
  | None => false
  end.

(** Lines 148-162: the version string is set when the container has
    none, or when the caller gives one. *)
Definition brand_version (f : h5file) (meta : dict (dict value))
    : dict (dict value) :=
  if negb (bool_decide (is_Some (attrs f !! "setup:software version")))
     || gives_version meta
  then
    let thisver := "dclab " +:+ version dfn in
    let thisver :=
      match dict_get "setup" meta ≫= dict_get "software version" with
      | Some oldver => py_format oldver +:+ " | " +:+ thisver
      | None => thisver
      end in
    let meta := if negb (dict_mem "setup" meta) then dict_set "setup" [] meta
                else meta in
    dict_set "setup"
      (dict_set "software version" (VStr thisver)
         (default [] (dict_get "setup" meta))) meta
  else meta.

(** Lines 167-182: one value is written as an attribute of the root. *)
Definition write_attribute (sec : string) (kv : string * value)
    : M h5file unit :=
  let '(ck, value) := kv in
  let idk := sec +:+ ":" +:+ ck in
  let* value :=
    match value with
    | VBytes b =>
        (* We never store byte attribute values. *)
        match bytes_decode b with
        | Some s => ret (VStr s)
        | None => raise UnicodeError
        end
    | _ => ret value
    end in
  if bool_decide (sec = "user") then
    (* store user-defined metadata as-is *)
    attrs_set idk value
  else
    (* pipe the metadata through the hard-coded converter functions *)
    match get_config_value_func dfn sec ck with
    | Some convfunc =>
        match convfunc value with
        | Some v => attrs_set idk v
        | None => raise (ConversionFailed sec ck)
        end
    | None => raise (ConversionFailed sec ck)
    end.

(** Lines 165-166: the loops over the sections and their keys. *)
Definition write_metadata (meta : dict (dict value)) : M h5file unit :=
  for_ meta (λ '(sec, keys), for_ keys (write_attribute sec)).

Definition store_metadata (meta : dict (dict value)) (version_brand : bool)
    : M h5file unit :=
  (* Check meta data *)
  check_metadata meta;;;
  let* meta := gets (λ f, if version_brand then brand_version f meta else meta) in
  (* Write metadata *)
  write_metadata meta.

End Writer.

(** The dataset [d] after the first [k] events of the converted
    [elements] of an array were copied to the events from [o] on. *)
Definition copied (o : nat) (elements : list Z) (d : dataset) (k : nat)
    : dataset :=
  let rs := row_size (ds_shape d) in
  set_flat d (take (o * rs) (ds_flat d) ++ take (k * rs) elements
              ++ drop ((o + k) * rs) (ds_flat d)).

(** The assumption of [write_ndarray] (writer.py:209-211), "the shape
    of the array data is correct": where [name] holds a dataset, its
    events have the shape of the events of [data].  A name that holds
    text is left out. *)
Definition shape_correct (name : string) (data : ndarray) (g : group)
    : Prop :=
  match g !! name with
  | Some (NDataset d) => tail (ds_shape d) = tail (shape data)
  | Some (NText _) => False
  | _ => True
  end.

(** The dataset [write_ndarray] leaves when it creates it for [data]. *)
Definition created (self : RTDCWriter) (data : ndarray) (dt : option np_dtype)
    : dataset :=
  {| ds_dtype := default (dtype data) dt;
     ds_shape := shape data;
     ds_maxshape := None :: (Some <$> tail (shape data));
     ds_chunks := ChunkShape (CHUNK_SIZE :: tail (shape data));
     ds_fletcher32 := true;
     ds_compression := compression self;
     ds_flat := flat data;
     ds_attrs := ∅ |}.

(** The dataset [d] with the events of [data] after its own. *)
Definition appended (d : dataset) (data : ndarray) : dataset :=
  {| ds_dtype := ds_dtype d;
     ds_shape := (hd 0 (ds_shape d) + hd 0 (shape data)) :: tail (ds_shape d);
     ds_maxshape := ds_maxshape d; ds_chunks := ds_chunks d;
     ds_fletcher32 := ds_fletcher32 d; ds_compression := ds_compression d;
     ds_flat := ds_flat d ++ flat data;
     ds_attrs := ds_attrs d |}.

(** A dataset holds one element for every index of its shape. *)
Definition wf_dataset (d : dataset) : Prop :=
  length (ds_flat d) = prod_list (ds_shape d).

(** The first axis of the dataset can grow to [n] events. *)
Definition resizable_to (d : dataset) (n : nat) : Prop :=
  match ds_maxshape d with
  | None :: _ => True
  | Some m :: _ => n ≤ m
  | [] => False
  end.

(** The group that [require_group(name)] gives in [g]: the one stored
    there, or the empty one it creates; none when the name is taken by a
    dataset. *)
Definition group_at (name : string) (g : group) : option group :=
  match g !! name with
  | None => Some ∅
  | Some (NGroup sub) => Some sub
  | Some _ => None
  end.

(** The container with [ev] as its group of events. *)
Definition with_events (f : h5file) (ev : group) : h5file :=
  {| attrs := attrs f; root := <["events" := NGroup ev]> (root f) |}.

(** A dataset with the three attributes of a series of grayscale
    images (writer.py:202-204). *)
Definition tagged (d : dataset) : dataset :=
  set_attr (set_attr (set_attr d "CLASS" "IMAGE") "IMAGE_VERSION" "1.2")
    "IMAGE_SUBCLASS" "IMAGE_GRAYSCALE".




(** The entries of a group are named ["0"], ["1"], ..., up to [k - 1],
    and nothing else is in it. *)
Definition dense (k : nat) (grp : group) : Prop :=
  dom grp = list_to_set (pretty <$> seq 0 k).

(** The arrays [write_ndarray] can create a dataset for: there is an
    axis of events, and no event is empty. *)
Definition storable (data : ndarray) : Prop :=
  shape data ≠ [] ∧ Forall (λ n, 0 < n) (tail (shape data)).

(** All the lines as bytes, when each of them can be encoded. *)
Fixpoint encode_all (lines : list line) : result (list (list byte)) :=
  match lines with
  | [] => Ok []
  | l :: lines' =>
      match line_bytes l, encode_all lines' with
      | Ok b, Ok bs => Ok (b :: bs)
      | Raise e, _ => Raise e
      | _, Raise e => Raise e
      end
  end.

(** The length of the longest of the byte strings. *)
Definition longest (bs : list (list byte)) : nat :=
  foldr (λ b m, length b `max` m) 0 bs.

(** The dataset of strings [write_text] creates for the lines [bs]. *)
Definition created_text (self : RTDCWriter) (bs : list (list byte))
    : text_dataset :=
  let w := 100 `max` longest bs in
  {| td_width := w; td_maxshape := None; td_chunks := ChunksAuto;
     td_fletcher32 := true; td_compression := compression self;
     td_lines := fit w <$> bs |}.

(** The dataset of strings [t] with the lines [bs] after its own. *)
Definition appended_text (t : text_dataset) (bs : list (list byte))
    : text_dataset :=
  set_lines t (td_lines t ++ (fit (td_width t) <$> bs)).

(** The dataset of strings can grow to [n] lines. *)
Definition text_resizable_to (t : text_dataset) (n : nat) : Prop :=
  match td_maxshape t with
  | None => True
  | Some m => n ≤ m
  end.

(** ** Data for the examples *)

Definition sample_writer : RTDCWriter :=
  {| mode := append; compression := Some "gzip" |}.

Definition sample_replacer : RTDCWriter :=
  {| mode := replace; compression := Some "gzip" |}.

(** The line ["a"] and a line of 101 bytes. *)
Definition short_line : line := Bytes [x61].
Definition long_line : line := Bytes (replicate 101 x78).

(** A few of the features, traces and metadata keys of dclab, with
    [str] and a number as converters. *)
Definition sample_dfn : definitions :=
  {| feature_exists := λ feat,
       bool_decide (feat ∈ ["area_um"; "deform"; "contour"; "image";
                            "image_bg"; "mask"; "trace"]);
     scalar_feature_exists := λ feat,
       bool_decide (feat ∈ ["area_um"; "deform"]);
     FLUOR_TRACES := ["fl1_median"; "fl1_raw"; "fl2_median"; "fl2_raw";
                      "fl3_median"; "fl3_raw"];
     CFG_METADATA := ["experiment"; "fluorescence"; "imaging";
                      "online_contour"; "online_filter"; "setup"];
     config_key_exists := λ sec ck,
       bool_decide ((sec, ck) ∈ [("setup", "software version");
                                 ("setup", "channel width");
                                 ("experiment", "sample")]);
     get_config_value_func := λ sec ck,
       if bool_decide ((sec, ck) ∈ [("setup", "software version");
                                    ("experiment", "sample")]) then
         Some (λ v, match v with
                    | VStr s => Some (VStr s)
                    | VNum z => Some (VStr (pretty z))
                    | VBytes _ => None
                    end)
       else if bool_decide ((sec, ck) = ("setup", "channel width")) then
         Some (λ v, match v with VNum z => Some (VNum z) | _ => None end)
       else None;
     version := "0.32.0" |}.

(** [f"{v}"] for text and whole numbers, and the decoding of ASCII
    bytes. *)
Definition sample_format (v : value) : string :=
  match v with
  | VStr s => s
  | VNum z => pretty z
  | VBytes _ => "b'...'"
  end.

Definition sample_decode (b : list byte) : option string :=
  if forallb (λ c, N.ltb (Byte.to_N c) 128) b
  then Some (String.string_of_list_byte b) else None.

Definition empty_file : h5file := {| attrs := ∅; root := ∅ |}.

(** 250 events of two values, more than two blocks. *)
Definition sample_frames : ndarray :=
  {| dtype := np_other "int64"; shape := [250; 2];
     flat := Z.of_nat <$> seq 0 500 |}.

Definition sample_deform_1 : ndarray :=
  {| dtype := np_other "int64"; shape := [3]; flat := [1; 2; 3]%Z |}.
Definition sample_deform_2 : ndarray :=
  {| dtype := np_other "int64"; shape := [2]; flat := [4; 5]%Z |}.

(** A mask of two frames of 2 x 2, and one frame of 3 x 2. *)
Definition sample_masks : ndarray :=
  {| dtype := np_bool; shape := [2; 2; 2];
     flat := [1; 0; 0; 1; 1; 1; 0; 0]%Z |}.

(** The events of a container that holds [sample_masks]. *)
Definition sample_mask_events : group :=
  (write_image_grayscale sample_replacer "mask" sample_masks ∅).1.

(** Contours of three, seven, one and five points. *)
Definition sample_contour (n : nat) : ndarray :=
  {| dtype := np_other "int64"; shape := [n; 2];
     flat := Z.of_nat <$> seq 0 (n * 2) |}.

(** One event of a trace of four samples. *)
Definition sample_trace : ndarray :=
  {| dtype := np_other "int16"; shape := [4]; flat := [5; 6; 7; 8]%Z |}.

(** The errors of the check of the metadata (writer.py:141, 145). *)
Definition validation_error (e : error) : Prop :=
  (∃ sec, e = SectionNotDefined sec) ∨ (∃ sec ck, e = KeyNotDefined sec ck).

(** A section or a key of the metadata that dclab does not define. *)
Definition undefined_metadata (dfn : definitions) (meta : dict (dict value))
    : Prop :=
  ∃ sec keys, (sec, keys) ∈ meta ∧ sec ≠ "user" ∧
    (sec ∉ CFG_METADATA dfn
     ∨ ∃ ck v, (ck, v) ∈ keys ∧ config_key_exists dfn sec ck = false).

(** The metadata give no software version. *)
Definition lacks_version (meta : dict (dict value)) : Prop :=
  ∀ keys, ("setup", keys) ∈ meta → "software version" ∉ keys.*1.

(** What the group of events holds under the name of a trace, and the
    same for the container. *)
Definition trace_entry (ev : group) (tr_name : string) : option node :=
  match ev !! "trace" with
  | Some (NGroup traces) => traces !! tr_name
  | _ => None
  end.

Definition stored_trace (f : h5file) (tr_name : string) : option node :=
  match root f !! "events" with
  | Some (NGroup ev) => trace_entry ev tr_name
  | _ => None
  end.



(** ** Further definitions for the properties of the writer *)

(** [np.concatenate((a, b))] for two arrays of one dtype whose events
    have the same shape: the events of [a], then those of [b].  (For
    arrays of two dtypes numpy takes a common dtype; the properties
    below ask for one dtype.) *)
Definition np_concatenate (a b : ndarray) : ndarray :=
  {| dtype := dtype a;
     shape := (hd 0 (shape a) + hd 0 (shape b)) :: tail (shape a);
     flat := flat a ++ flat b |}.

(** The dataset [write_ragged] creates for one event (writer.py:260-264):
    the event itself, in one chunk of its own shape, not resizable. *)
Definition stored_event (self : RTDCWriter) (cc : ndarray) : dataset :=
  {| ds_dtype := dtype cc;
     ds_shape := shape cc;
     ds_maxshape := Some <$> shape cc;
     ds_chunks := ChunkShape (shape cc);
     ds_fletcher32 := true;
     ds_compression := compression self;
     ds_flat := flat cc;
     ds_attrs := ∅ |}.

(** The three attributes of a series of grayscale images. *)
Definition image_tags (d : dataset) : Prop :=
  ds_attrs d !! "CLASS" = Some "IMAGE"
  ∧ ds_attrs d !! "IMAGE_VERSION" = Some "1.2"
  ∧ ds_attrs d !! "IMAGE_SUBCLASS" = Some "IMAGE_GRAYSCALE".

(** The value that is written for a metadata value (writer.py:169-174):
    bytes are decoded, everything else is taken as it is. *)
Definition decoded (bytes_decode : list byte → option string) (v : value)
    : option value :=
  match v with
  | VBytes b => VStr <$> bytes_decode b
  | _ => Some v
  end.

(** The container with [lg] as its group of logs. *)
Definition with_logs (f : h5file) (lg : group) : h5file :=
  {| attrs := attrs f; root := <["logs" := NGroup lg]> (root f) |}.

(** A lone surrogate, which is no text that UTF-8 encodes. *)
Definition surrogate_line : line := Str [0xD800%N].

(** A name that HDF5 takes as the name of one link of a group: not
    empty, not ["."], and without ["/"].  Any other name is a path for
    h5py, which resolves it link by link, from the root of the file when
    it starts with ["/"]; the groups of this model are keyed by link
    names, and the properties that depend on where a name leads ask for
    link names. *)
Fixpoint has_char (c : ascii) (s : string) : bool :=
  match s with
  | EmptyString => false
  | String c' s' => bool_decide (c = c') || has_char c s'
  end.

Definition link_name (name : string) : Prop :=
  name ≠ "" ∧ name ≠ "." ∧ has_char "/"%char name = false.

(** The names in the data of a feature are link names: the names of the
    traces (writer.py:60-62 looks them up and deletes them before they
    are verified). *)
Definition plain_names (data : feature_data) : Prop :=
  match data with
  | TraceDict traces => Forall link_name traces.*1
  | _ => True
  end.

(** *** More data for the examples *)

(** No event of seven values, and a number without an axis. *)
Definition sample_no_event : ndarray :=
  {| dtype := np_other "int64"; shape := [0; 7]; flat := [] |}.
Definition sample_number : ndarray :=
  {| dtype := np_other "int64"; shape := []; flat := [7]%Z |}.

(** One frame of a mask of 2 x 2. *)
Definition sample_frame : ndarray :=
  {| dtype := np_bool; shape := [2; 2]; flat := [0; 1; 1; 0]%Z |}.

(** [sample_frames] and [sample_deform_1] as they are stored. *)
Definition sample_stored_frames : dataset :=
  created sample_writer sample_frames None.
Definition sample_stored_deform : dataset :=
  created sample_writer sample_deform_1 None.

(** The events of a container with two traces. *)
Definition sample_traces : group :=
  <["fl1_raw" := NDataset sample_stored_frames]>
    (<["fl2_raw" := NDataset sample_stored_frames]> ∅).
Definition sample_trace_events : group :=
  <["trace" := NGroup sample_traces]> ∅.

(** The definitions of a dclab that knows the feature [qpi_pha], which is
    not scalar and for which the writer has no rule. *)
Definition later_dfn : definitions :=
  {| feature_exists := λ feat, bool_decide (feat ∈ ["deform"; "qpi_pha"]);
     scalar_feature_exists := λ feat, bool_decide (feat = "deform");
     FLUOR_TRACES := [];
     CFG_METADATA := [];
     config_key_exists := λ _ _, false;
     get_config_value_func := λ _ _, None;
     version := "0.47.0" |}.

(** The converter of a number, as in [sample_dfn]. *)
Definition sample_number_converter (v : value) : option value :=
  match v with VNum z => Some (VNum z) | _ => None end.

(** The converter of a text, as in [sample_dfn]. *)
Definition sample_text_converter (v : value) : option value :=
  match v with
  | VStr s => Some (VStr s)
  | VNum z => Some (VStr (pretty z))
  | VBytes _ => None
  end.

(** 150 events of two values, and the events of a container that
    holds one event of 150 x 2 values under [image]. *)
Definition sample_profile : ndarray :=
  {| dtype := np_other "int64"; shape := [150; 2];
     flat := Z.of_nat <$> seq 0 300 |}.
Definition sample_profile_event : ndarray :=
  {| dtype := np_other "int64"; shape := [1; 150; 2];
     flat := replicate 300 7%Z |}.
Definition sample_profile_events : group :=
  <["image" := NDataset (created sample_writer sample_profile_event None)]> ∅.




(** * Properties *)

(** ** Loops *)

Lemma for_app {S A} (l1 l2 : list A) (body : A → M S unit) (s : S) :
  for_ (l1 ++ l2) body s =
  match for_ l1 body s with
  | (s', Ok _) => for_ l2 body s'
  | (s', Raise e) => (s', Raise e)
  end.
Proof.
  revert s. induction l1 as [|x l1 IH]; intros s; simpl; [done|].
  unfold bind. destruct (body x s) as [s' [[]|e]]; [apply IH | done].
Qed.

Lemma for_cons {S A} (x : A) (l : list A) (body : A → M S unit) (s : S) :
  for_ (x :: l) body s =
  match body x s with
  | (s', Ok _) => for_ l body s'
  | (s', Raise e) => (s', Raise e)
  end.
Proof. done. Qed.

(** A loop whose body leaves the store alone leaves it alone. *)
Lemma for_unchanged {S A} (l : list A) (body : A → M S unit) (s : S) :
  (∀ x s0, (body x s0).1 = s0) → (for_ l body s).1 = s.
Proof.
  intros Hbody. revert s. induction l as [|x l IH]; intros s; simpl; [done|].
  unfold bind. specialize (Hbody x s).
  destruct (body x s) as [s' [[]|e]]; simpl in *; subst; [apply IH | done].
Qed.

(** ** Lists of elements cut at multiples of the row size *)

Lemma set_flat_id (d : dataset) : set_flat d (ds_flat d) = d.
Proof. by destruct d. Qed.

Lemma splice_next {A} (F V : list A) (p x y : nat) :
  length F = p + length V → x + y ≤ length V →
  let Fx := take p F ++ take x V ++ drop (p + x) F in
  take (p + x) Fx ++ take y (drop x V) ++ drop (p + x + y) Fx
  = take p F ++ take (x + y) V ++ drop (p + x + y) F.
Proof.
  intros HF Hxy Fx. subst Fx.
  assert (Hp : length (take p F) = p) by (rewrite length_take; lia).
  assert (Hx : length (take x V) = x) by (rewrite length_take; lia).
  rewrite (app_assoc (take p F)).
  rewrite take_app_length'; [|rewrite length_app; lia].
  rewrite drop_app_ge; rewrite length_app, Hp, Hx; [|lia].
  rewrite drop_drop.
  replace (p + x + (p + x + y - (p + x))) with (p + x + y) by lia.
  rewrite <- !app_assoc. f_equal.
  rewrite (app_assoc (take x V)). by rewrite take_take_drop.
Qed.

(** ** The engine's operations on a dataset of a group *)

Lemma setitem_rows_eq (name : string) (a : nat) (b : option nat)
    (v : ndarray) (g : group) (d : dataset) :
  g !! name = Some (NDataset d) →
  setitem_rows name a b v g =
  match assign_rows d a (default (hd 0 (ds_shape d)) b) v with
  | Ok d' => (<[name := NDataset d']> g, Ok tt)
  | Raise e => (g, Raise e)
  end.
Proof.
  intros Hd. unfold setitem_rows, bind, get_dataset, lift_result, modify.
  rewrite Hd. by destruct (assign_rows _ _ _ _).
Qed.

Lemma assign_rows_shape (d d' : dataset) (a b : nat) (v : ndarray) :
  assign_rows d a b v = Ok d' → ds_shape d' = ds_shape d.
Proof.
  unfold assign_rows. case_bool_decide; [by intros [= <-]|].
  destruct (broadcast _ _); [|done].
  destruct (h5_convert _ _); [|done]. by intros [= <-].
Qed.

Lemma h5_convert_same (dt : np_dtype) : h5_convert dt dt = Some id.
Proof. unfold h5_convert. by rewrite bool_decide_eq_true_2. Qed.

Section Blocks.

(** A dataset of [o + n] events and an array of [n] events. *)
Context (o n : nat) (dtrail trailing : list nat) (data : ndarray).
Context (Hdata : shape data = n :: trailing).
Context (HV : length (flat data) = n * prod_list trailing).

Let rs := prod_list dtrail.

(** A block of events of the shape of the events of the dataset is
    written as it is, converted. *)
Lemma assign_rows_block (d : dataset) (a x : nat) :
  trailing = dtrail →
  ds_shape d = (o + n) :: dtrail →
  a + x ≤ n → x * rs ≠ 0 →
  assign_rows d (o + a) (o + (a + x)) (slice data a (a + x)) =
  match h5_convert (dtype data) (ds_dtype d) with
  | Some convert =>
      Ok (set_flat d (take ((o + a) * rs) (ds_flat d)
                      ++ take (x * rs) (drop (a * rs) (convert <$> flat data))
                      ++ drop ((o + (a + x)) * rs) (ds_flat d)))
  | None => Raise (Engine NoConversionPath)
  end.
Proof.
  intros Htr Hd Hax Hx. unfold assign_rows, broadcast, slice, row_size.
  rewrite Hd, Hdata. simpl hd. simpl tail. simpl shape. simpl dtype.
  simpl flat. rewrite Htr. fold rs.
  replace ((o + a) `min` (o + n)) with (o + a) by lia.
  replace ((o + (a + x)) `min` (o + n)) with (o + (a + x)) by lia.
  replace (o + (a + x) - (o + a)) with x by lia.
  replace (a `min` n) with a by lia.
  replace ((a + x) `min` n) with (a + x) by lia.
  replace (a + x - a) with x by lia.
  rewrite bool_decide_eq_false_2 by done.
  rewrite bool_decide_eq_true_2 by done.
  destruct (h5_convert _ _); [|done].
  by rewrite fmap_take, fmap_drop.
Qed.

Lemma copied_0 (V : list Z) (d : dataset) : copied o V d 0 = d.
Proof.
  unfold copied. simpl. rewrite Nat.add_0_r, take_drop. apply set_flat_id.
Qed.

Lemma copied_next (V : list Z) (d : dataset) (a x : nat) :
  length V = n * rs →
  ds_shape d = (o + n) :: dtrail →
  length (ds_flat d) = (o + n) * rs →
  a + x ≤ n →
  set_flat (copied o V d a)
    (take ((o + a) * rs) (ds_flat (copied o V d a))
     ++ take (x * rs) (drop (a * rs) V)
     ++ drop ((o + (a + x)) * rs) (ds_flat (copied o V d a)))
  = copied o V d (a + x).
Proof.
  intros HVl Hd HF Hax. unfold copied, row_size. rewrite Hd. simpl tail.
  fold rs. unfold set_flat. simpl. f_equal.
  rewrite !Nat.mul_add_distr_r, !Nat.add_assoc.
  apply (splice_next (ds_flat d) V (o * rs) (a * rs) (x * rs)).
  - rewrite HF, HVl. lia.
  - rewrite HVl. nia.
Qed.

Context (name : string) (g : group) (d : dataset).
Context (Hg : g !! name = Some (NDataset d)).
Context (Hd : ds_shape d = (o + n) :: dtrail).
Context (HF : length (ds_flat d) = (o + n) * rs).

(** The body of the loop of [write_chunked] (writer.py:237-239). *)
Let body (chunk ii : nat) : M group unit :=
  setitem_rows name (o + ii * chunk) (Some (o + (ii * chunk + chunk)))
    (slice data (ii * chunk) (ii * chunk + chunk)).

Lemma block_copied (convert : Z → Z) (a x : nat) :
  trailing = dtrail →
  h5_convert (dtype data) (ds_dtype d) = Some convert →
  a + x ≤ n → x * rs ≠ 0 →
  setitem_rows name (o + a) (Some (o + (a + x))) (slice data a (a + x))
    (<[name := NDataset (copied o (convert <$> flat data) d a)]> g)
  = (<[name := NDataset (copied o (convert <$> flat data) d (a + x))]> g,
     Ok tt).
Proof.
  intros Htr Hcv Hax Hx.
  rewrite (setitem_rows_eq _ _ _ _ _ (copied o (convert <$> flat data) d a))
    by apply lookup_insert_eq.
  simpl default. rewrite assign_rows_block by done.
  simpl ds_dtype. rewrite Hcv.
  rewrite copied_next by (done || (rewrite length_fmap, HV, Htr; done)).
  by rewrite insert_insert_eq.
Qed.

Lemma chunks_copied (convert : Z → Z) (chunk k : nat) :
  trailing = dtrail →
  h5_convert (dtype data) (ds_dtype d) = Some convert →
  chunk * rs ≠ 0 → k * chunk ≤ n →
  for_ (seq 0 k) (body chunk) g
  = (<[name := NDataset (copied o (convert <$> flat data) d (k * chunk))]> g,
     Ok tt).
Proof.
  intros Htr Hcv Hc. induction k as [|k IH]; intros Hk.
  - simpl. unfold ret. by rewrite copied_0, insert_id.
  - simpl in Hk. rewrite seq_S, for_app, IH by lia. simpl. unfold bind, body.
    rewrite (block_copied convert) by (done || lia).
    unfold ret. by rewrite (Nat.add_comm chunk).
Qed.

(** With no element to write, no assignment changes the dataset. *)
Lemma block_empty (a b : nat) (v : ndarray) :
  n * rs = 0 → o + a ≤ o + b →
  setitem_rows name (o + a) (Some (o + b)) v g = (g, Ok tt).
Proof.
  intros Hn Hab. rewrite (setitem_rows_eq _ _ _ _ _ d) by done.
  unfold assign_rows, row_size. rewrite Hd. simpl. fold rs.
  rewrite bool_decide_eq_true_2 by nia. by rewrite insert_id.
Qed.

Lemma chunks_empty (chunk k : nat) :
  n * rs = 0 → for_ (seq 0 k) (body chunk) g = (g, Ok tt).
Proof.
  intros Hn. induction k as [|k IH]; [done|].
  rewrite seq_S, for_app, IH. simpl. unfold bind, body.
  by rewrite block_empty by (done || lia).
Qed.

(** Where the engine has no conversion for the elements, the first
    block is refused. *)
Lemma block_unconverted (x : nat) :
  trailing = dtrail →
  h5_convert (dtype data) (ds_dtype d) = None →
  x ≤ n → x * rs ≠ 0 →
  setitem_rows name (o + 0) (Some (o + x)) (slice data 0 x) g
  = (g, Raise (Engine NoConversionPath)).
Proof.
  intros Htr Hcv Hxn Hx. rewrite (setitem_rows_eq _ _ _ _ _ d) by done.
  pose proof (assign_rows_block d 0 x Htr Hd) as Hb. simpl in Hb.
  simpl default. rewrite Hb by (done || lia).
  by rewrite Hcv.
Qed.

Lemma bulk_copied :
  n * rs = 0 ∨ trailing = dtrail →
  setitem_rows name o None data g =
  if bool_decide (n * rs = 0) then (g, Ok tt)
  else match h5_convert (dtype data) (ds_dtype d) with
       | Some convert =>
           (<[name := NDataset (copied o (convert <$> flat data) d n)]> g,
            Ok tt)
       | None => (g, Raise (Engine NoConversionPath))
       end.
Proof.
  intros Hfit. rewrite (setitem_rows_eq _ _ _ _ _ d) by done.
  rewrite Hd. simpl default. simpl hd.
  case_bool_decide as Hn.
  - unfold assign_rows, row_size. rewrite Hd. simpl. fold rs.
    rewrite bool_decide_eq_true_2 by nia. by rewrite insert_id.
  - destruct Hfit as [?|Htr]; [done|].
    pose proof (assign_rows_block d 0 n Htr Hd) as Hb.
    rewrite Nat.add_0_r in Hb. simpl in Hb.
    assert (Hs : slice data 0 n = data).
    { unfold slice, row_size. rewrite Hdata. simpl.
      rewrite Nat.min_id, Nat.sub_0_r, drop_0.
      rewrite take_ge by (rewrite HV; done).
      destruct data; simpl in *. by rewrite Hdata. }
    rewrite Hs in Hb. rewrite Hb by (done || lia).
    destruct (h5_convert _ _) as [convert|]; [|done].
    pose proof (copied_next (convert <$> flat data) d 0 n) as Hc.
    rewrite copied_0 in Hc. simpl in Hc. rewrite Nat.add_0_r in Hc.
    rewrite drop_0 in Hc. rewrite drop_0.
    by rewrite Hc by (done || (rewrite length_fmap, HV, Htr; done)).
Qed.

Lemma write_chunked_bulk (chunk : nat) :
  0 < chunk →
  n * rs = 0 ∨ trailing = dtrail →
  write_chunked chunk name o data g = setitem_rows name o None data g.
Proof.
  intros Hchunk Hfit. rewrite bulk_copied by done.
  unfold write_chunked, bind, len. rewrite Hdata. unfold ret at 1.
  pose proof (Nat.div_mod_eq n chunk) as Hdiv.
  pose proof (Nat.mod_upper_bound n chunk) as Hmod.
  set (q := n / chunk) in *. set (r := n `mod` chunk) in *.
  assert (Hn : n = q * chunk + r) by lia.
  assert (Hr : r < chunk) by lia.
  fold (body chunk). clearbody q r. clear Hdiv Hmod.
  destruct (decide (n * rs = 0)) as [Hz|Hz].
  - rewrite (bool_decide_eq_true_2 (n * rs = 0)) by done.
    rewrite chunks_empty by done.
    case_bool_decide; [|done]. by apply block_empty; [|lia].
  - rewrite (bool_decide_eq_false_2 (n * rs = 0)) by done.
    destruct Hfit as [?|Htr]; [done|].
    destruct (h5_convert (dtype data) (ds_dtype d)) as [convert|] eqn:Hcv.
    + rewrite (chunks_copied convert) by (done || nia).
      case_bool_decide as Hr0.
      * rewrite (block_copied convert) by (done || nia). by rewrite <- Hn.
      * unfold ret. by replace (q * chunk) with n by lia.
    + destruct q as [|q].
      * simpl. unfold ret at 1. simpl in Hn. subst r.
        rewrite bool_decide_eq_true_2 by (intros ->; lia).
        by apply (block_unconverted n).
      * rewrite <- cons_seq. simpl for_. unfold bind.
        unfold body at 1. simpl Nat.mul. simpl (0 + chunk).
        by rewrite (block_unconverted chunk) by (done || nia).
Qed.

End Blocks.

(** ** [write_ndarray] *)

(** Where [open_dataset] returns, the dataset holds the old events and
    room for the events of the data; its events have the shape of those
    of the data when the dataset is new, and the shape they had
    otherwise. *)
Lemma open_dataset_ok (self : RTDCWriter) (name : string) (data : ndarray)
    (dt : option np_dtype) (g g1 : group) (offset : nat) :
  open_dataset self name data dt g = (g1, Ok offset) →
  ∃ n trailing d dtrail,
    shape data = n :: trailing ∧
    g1 !! name = Some (NDataset d) ∧
    ds_shape d = (offset + n) :: dtrail ∧
    length (ds_flat d) = (offset + n) * prod_list dtrail ∧
    ((g !! name = None ∧ dtrail = trailing)
     ∨ ∃ d0, g !! name = Some (NDataset d0) ∧ dtrail = tail (ds_shape d0)).
Proof.
  unfold open_dataset, bind, contains, gets.
  case_bool_decide as Hin; simpl.
  - unfold get_dataset. destruct Hin as [nd Hnd]. rewrite Hnd.
    destruct nd as [d| |]; try (intros [= ]; done).
    destruct (ds_shape d) as [|m dtrail] eqn:Hsh; [intros [= ]; done|].
    unfold ret at 1, len. destruct (shape data) as [|n trailing] eqn:Hdata;
      [intros [= ]; done|].
    unfold ret at 1, resize, bind, get_dataset. rewrite Hnd.
    unfold lift_result, resize_dataset. rewrite Hsh.
    destruct (ds_maxshape d) as [|lim ?]; [intros [= ]; done|].
    destruct (match lim with None => _ | Some _ => _ end);
      [|intros [= ]; done].
    unfold modify, ret. intros [= <- <-].
    eexists n, trailing, _, dtrail. rewrite lookup_insert_eq.
    split_and!; [done..| |].
    + simpl. rewrite length_take, length_app, length_replicate. lia.
    + right. exists d. by rewrite Hsh.
  - unfold create_dataset.
    case_bool_decide as Hrank; simpl; [|intros [= ]; done].
    case_bool_decide as Hchunks; simpl; [|intros [= ]; done].
    rewrite bool_decide_eq_false_2 by done.
    unfold ret. intros [= <- <-].
    destruct (shape data) as [|n trailing] eqn:Hdata; [simpl in Hrank; lia|].
    eexists n, trailing, _, trailing. rewrite lookup_insert_eq.
    split_and!; [done..| |].
    + simpl. by rewrite length_replicate.
    + left. split; [|done]. destruct (g !! name) eqn:Hnone; [|done].
      destruct Hin. by eexists.
Qed.

(** For an array whose events have the shape of those of the dataset,
    or that has no event, [write_ndarray] does what the single
    assignment does. *)
Lemma write_ndarray_as_bulk (self : RTDCWriter) (name : string)
    (data : ndarray) (dt : option np_dtype) (g : group) :
  wf_ndarray data →
  (∀ d, g !! name = Some (NDataset d) →
        hd 0 (shape data) = 0 ∨ tail (ds_shape d) = tail (shape data)) →
  write_ndarray self name data dt g = write_ndarray_bulk self name data dt g.
Proof.
  intros Hwf Hfit. unfold write_ndarray, write_ndarray_bulk, bind.
  destruct (open_dataset self name data dt g) as [g1 [offset|e]] eqn:Hopen;
    [|done].
  case_bool_decide; [done|].
  destruct (open_dataset_ok _ _ _ _ _ _ _ Hopen)
    as (n & trailing & d & dtrail & Hdata & Hg1 & Hd & HF & Hfrom).
  apply (write_chunked_bulk offset n dtrail trailing data Hdata) with (d := d);
    try done.
  - unfold wf_ndarray in Hwf. by rewrite Hwf, Hdata.
  - unfold CHUNK_SIZE. lia.
  - destruct Hfrom as [[_ ->]|(d0 & Hd0 & ->)]; [by right|].
    destruct (Hfit d0 Hd0) as [Hn|Htr].
    + left. rewrite Hdata in Hn. simpl in Hn. by rewrite Hn.
    + right. rewrite Htr, Hdata. done.
Qed.

Lemma shape_correct_fits (name : string) (data : ndarray) (g : group) :
  shape_correct name data g →
  ∀ d, g !! name = Some (NDataset d) →
       hd 0 (shape data) = 0 ∨ tail (ds_shape d) = tail (shape data).
Proof. unfold shape_correct. intros Hok d Hd. rewrite Hd in Hok. by right. Qed.

(** C1: for every multi-dimensional array whose events have the shape
    of the events of the dataset it is written to (the assumption of
    [write_ndarray], writer.py:209-211), [write_ndarray] copies the
    events in blocks of [CHUNK_SIZE] events and a last partial block, and
    this leaves the group, and the dataset in it, exactly as one
    assignment of the whole new slice at the same offset does; where one
    of the two raises, so does the other, with the same error and the
    same store. *)
Theorem write_ndarray_chunked_eq_bulk (self : RTDCWriter) (name : string)
    (data : ndarray) (dt : option np_dtype) (g : group) :
  wf_ndarray data →
  2 ≤ length (shape data) →
  shape_correct name data g →
  write_ndarray self name data dt g
    = (let* offset := open_dataset self name data dt in
       write_chunked CHUNK_SIZE name offset data) g
  ∧ write_ndarray self name data dt g = write_ndarray_bulk self name data dt g.
Proof.
  intros Hwf Hdim Hshape. split.
  - unfold write_ndarray. by rewrite bool_decide_eq_false_2 by lia.
  - apply write_ndarray_as_bulk; [done|]. by apply shape_correct_fits.
Qed.

(** Without the assumption on the shape the two differ: 150 events of
    two values, written to a dataset whose events are of 150 x 2
    values, are refused at the first block of 100 events, which cannot
    be broadcast to 100 events of 150 x 2; the single assignment
    broadcasts the 150 x 2 values to each of the 150 new events and
    returns. *)
Lemma write_ndarray_chunked_eq_bulk_counterexample :
  wf_ndarray sample_profile ∧ 2 ≤ length (shape sample_profile)
  ∧ (write_ndarray sample_writer "image" sample_profile None
       sample_profile_events).2 = Raise (Engine CannotBroadcast)
  ∧ (write_ndarray_bulk sample_writer "image" sample_profile None
       sample_profile_events).2 = Ok tt
  ∧ write_ndarray sample_writer "image" sample_profile None
      sample_profile_events
    ≠ write_ndarray_bulk sample_writer "image" sample_profile None
        sample_profile_events.
Proof.
  assert (Hchunked : (write_ndarray sample_writer "image" sample_profile None
                        sample_profile_events).2
                     = Raise (Engine CannotBroadcast))
    by (vm_compute; reflexivity).
  assert (Hbulk : (write_ndarray_bulk sample_writer "image" sample_profile
                     None sample_profile_events).2 = Ok tt)
    by (vm_compute; reflexivity).
  split_and!; [vm_compute; reflexivity|simpl; lia|exact Hchunked|exact Hbulk|].
  intros Heq. rewrite Heq, Hbulk in Hchunked. discriminate.
Qed.

(** The dataset a first write leaves holds the data. *)
Lemma write_ndarray_fresh (self : RTDCWriter) (name : string)
    (data : ndarray) (g : group) :
  wf_ndarray data → storable data → g !! name = None →
  write_ndarray self name data None g
  = (<[name := NDataset (created self data None)]> g, Ok tt).
Proof.
  intros Hwf [Hsh Hpos] Hg.
  rewrite write_ndarray_as_bulk
    by (done || (intros d Hd; by rewrite Hg in Hd)).
  destruct (shape data) as [|n trailing] eqn:Hdata; [done|].
  unfold write_ndarray_bulk, bind, open_dataset, bind, contains, gets.
  rewrite bool_decide_eq_false_2 by (rewrite Hg; by intros [? ?]). simpl.
  unfold create_dataset.
  rewrite bool_decide_eq_true_2
    by (rewrite Hdata; simpl; rewrite length_fmap; done).
  rewrite bool_decide_eq_true_2.
  2:{ rewrite Hdata. split; [done|]. apply Forall_cons. split; [|done].
      unfold CHUNK_SIZE. lia. }
  rewrite bool_decide_eq_false_2 by (rewrite Hg; by intros [? ?]). simpl.
  unfold ret. unfold wf_ndarray in Hwf. rewrite Hdata in Hwf.
  erewrite (bulk_copied 0 n trailing trailing data Hdata Hwf);
    [|apply lookup_insert_eq|simpl; by rewrite Hdata| |by right];
    [|simpl; by rewrite length_replicate, Hdata].
  simpl ds_dtype. rewrite h5_convert_same, insert_insert_eq, list_fmap_id.
  assert (Hnew : ∀ F : list Z, F = flat data →
    {| ds_dtype := dtype data; ds_shape := n :: trailing;
       ds_maxshape := None :: (Some <$> trailing);
       ds_chunks := ChunkShape (CHUNK_SIZE :: trailing);
       ds_fletcher32 := true; ds_compression := compression self;
       ds_flat := F; ds_attrs := ∅ |} = created self data None)
    by (intros ? ->; unfold created; by rewrite Hdata).
  rewrite !Hdata. simpl tail.
  case_bool_decide as Hz.
  - rewrite Hnew; [done|]. simpl prod_list.
    simpl in Hwf. rewrite Hz. rewrite Hz in Hwf.
    by destruct (flat data).
  - do 3 f_equal.
    unfold copied, set_flat, row_size. simpl.
    apply Hnew. rewrite take_ge by (simpl in Hwf; lia).
    rewrite drop_ge by (rewrite length_replicate; lia).
    by rewrite app_nil_r.
Qed.

(** An append of elements of the dtype of the dataset, to a dataset
    whose events have the shape of those of the data, leaves the old
    events, then the new ones. *)
Lemma write_ndarray_append (self : RTDCWriter) (name : string)
    (data : ndarray) (dt : option np_dtype) (g : group) (d : dataset) :
  wf_ndarray data → wf_dataset d →
  g !! name = Some (NDataset d) →
  shape data ≠ [] → ds_shape d ≠ [] →
  tail (shape data) = tail (ds_shape d) →
  resizable_to d (hd 0 (ds_shape d) + hd 0 (shape data)) →
  dtype data = ds_dtype d →
  write_ndarray self name data dt g
  = (<[name := NDataset (appended d data)]> g, Ok tt).
Proof.
  intros Hwf Hwfd Hg Hsh Hshd Htr Hmax Hdt.
  rewrite write_ndarray_as_bulk
    by (done || (intros d0 Hd0; rewrite Hg in Hd0; injection Hd0 as <-;
                 by right)).
  destruct (shape data) as [|n trailing] eqn:Hdata; [done|].
  destruct (ds_shape d) as [|k dtrail] eqn:Hd; [done|].
  simpl in Htr. subst dtrail. simpl in Hmax.
  unfold write_ndarray_bulk, bind, open_dataset, bind, contains, gets.
  rewrite bool_decide_eq_true_2 by (by rewrite Hg). simpl.
  unfold get_dataset at 1. rewrite Hg, Hd. unfold ret at 1, len.
  rewrite Hdata. unfold ret at 1, resize, bind, get_dataset. rewrite Hg.
  unfold lift_result, resize_dataset. rewrite Hd.
  unfold resizable_to in Hmax.
  destruct (ds_maxshape d) as [|lim rest] eqn:Hlim; [done|].
  assert (Hok : (match lim with
                 | None => true
                 | Some m => bool_decide (k + n ≤ m)
                 end) = true).
  { destruct lim; [by apply bool_decide_eq_true_2|done]. }
  rewrite Hok. unfold modify, ret.
  unfold wf_ndarray in Hwf. rewrite Hdata in Hwf.
  unfold wf_dataset in Hwfd. rewrite Hd in Hwfd. simpl in Hwf, Hwfd.
  assert (HF : take ((k + n) * prod_list trailing)
                 (ds_flat d ++ replicate ((k + n) * prod_list trailing) 0%Z)
               = ds_flat d ++ replicate (n * prod_list trailing) 0%Z).
  { rewrite take_app_ge by lia. rewrite take_replicate. do 2 f_equal. lia. }
  rewrite HF.
  erewrite (bulk_copied k n trailing trailing data Hdata Hwf);
    [|apply lookup_insert_eq|done| |by right];
    [|simpl; rewrite length_app, length_replicate; lia].
  simpl ds_dtype. rewrite Hdt, h5_convert_same, insert_insert_eq, list_fmap_id.
  assert (Hnew : ∀ F : list Z, F = ds_flat d ++ flat data →
    {| ds_dtype := ds_dtype d; ds_shape := (k + n) :: trailing;
       ds_maxshape := ds_maxshape d; ds_chunks := ds_chunks d;
       ds_fletcher32 := ds_fletcher32 d; ds_compression := ds_compression d;
       ds_flat := F; ds_attrs := ds_attrs d |} = appended d data).
  { intros ? ->. unfold appended. by rewrite Hd, Hdata. }
  rewrite <- Hlim.
  case_bool_decide as Hz.
  - rewrite Hnew; [done|]. rewrite Hz. rewrite Hz in Hwf.
    destruct (flat data); [|done]. done.
  - do 3 f_equal.
    unfold copied, set_flat, row_size. simpl.
    apply Hnew. rewrite take_app_length' by lia.
    rewrite take_ge by lia.
    rewrite drop_ge by (rewrite length_app, length_replicate; lia).
    by rewrite app_nil_r.
Qed.

(** ** Groups *)

Lemma require_in_group {A} (name : string) (m : M group A) (g sub sub' : group)
    (r : result A) :
  group_at name g = Some sub →
  m sub = (sub', r) →
  (require_group name;;; in_group name m) g = (<[name := NGroup sub']> g, r).
Proof.
  unfold group_at, bind, require_group, in_group.
  destruct (g !! name) as [[| |sub0]|] eqn:Hg; intros [= <-] Hm.
  - by rewrite Hg, Hm.
  - rewrite lookup_insert_eq, Hm. by rewrite insert_insert_eq.
Qed.

Lemma require_in_group_refused {A} (name : string) (m : M group A) (g : group) :
  group_at name g = None →
  (require_group name;;; in_group name m) g
  = (g, Raise (Engine IncompatibleObject)).
Proof.
  unfold group_at, bind, require_group, in_group.
  by destruct (g !! name) as [[| |sub0]|] eqn:Hg; intros [= ].
Qed.

Lemma group_at_insert (name : string) (g sub : group) :
  group_at name (<[name := NGroup sub]> g) = Some sub.
Proof. unfold group_at. by rewrite lookup_insert_eq. Qed.



(** ** [store_feature] *)

Section StoreFeature.

Context (dfn : definitions) (self : RTDCWriter).

(** A defined feature is written in the group of events. *)
Lemma store_feature_in_events (feat : string) (data : feature_data)
    (f : h5file) (ev ev' : group) (r : result unit) :
  feature_exists dfn feat = true →
  group_at "events" (root f) = Some ev →
  (replace_feature self feat data;;; write_feature dfn self feat data) ev
    = (ev', r) →
  store_feature dfn self feat data f = (with_events f ev', r).
Proof.
  intros Hfeat Hev Hbody. unfold store_feature, on_root.
  rewrite Hfeat. simpl.
  by rewrite (require_in_group _ _ _ ev ev' r).
Qed.

(** Nothing is deleted unless the mode is [replace] and the feature is
    there. *)
Lemma replace_feature_keeps (feat : string) (data : feature_data) (ev : group) :
  mode self ≠ replace ∨ ev !! feat = None →
  replace_feature self feat data ev = (ev, Ok tt).
Proof.
  intros Hkeep. unfold replace_feature, bind, contains, gets.
  destruct Hkeep as [Hm|Hnone].
  - rewrite (bool_decide_eq_false_2 (mode self = replace)) by done.
    by rewrite andb_false_r.
  - rewrite bool_decide_eq_false_2; [done|]. rewrite Hnone. by intros [? ?].
Qed.

(** In mode [replace], a feature other than [trace] that is there is
    deleted. *)
Lemma replace_feature_deletes (feat : string) (data : feature_data) (ev : group) :
  mode self = replace → is_Some (ev !! feat) → feat ≠ "trace" →
  replace_feature self feat data ev = (delete feat ev, Ok tt).
Proof.
  intros Hm Hin Hfeat. unfold replace_feature, bind, contains, gets.
  rewrite !bool_decide_eq_true_2 by done. simpl.
  by rewrite bool_decide_eq_false_2 by done.
Qed.

Lemma write_feature_scalar (feat : string) (a : ndarray) (ev : group) :
  scalar_feature_exists dfn feat = true →
  write_feature dfn self feat (Array a) ev
  = write_ndarray self feat (np_atleast_1d a) None ev.
Proof. intros Hs. unfold write_feature. by rewrite Hs. Qed.

Lemma bind_ok {S A B} (m : M S A) (k : A → M S B) (s s' : S) (a : A) :
  m s = (s', Ok a) → (let* x := m in k x) s = k a s'.
Proof. intros Hm. unfold bind. by rewrite Hm. Qed.


End StoreFeature.


(** ** [write_image_grayscale] *)

Lemma image_batch_wf (data : ndarray) :
  wf_ndarray data → wf_ndarray (image_batch data).
Proof.
  unfold wf_ndarray, image_batch, np_atleast_2d, reshape, bool_to_uint8.
  intros Hwf.
  destruct (shape data) as [|s0 [|s1 [|s2 sh]]] eqn:Hsh; simpl;
    rewrite ?Hsh; simpl; case_bool_decide; simpl; rewrite ?Hsh;
    rewrite ?length_fmap, ?Hwf; simpl; (done || lia).
Qed.

Lemma attrs_create_eq (name k v : string) (g : group) (d : dataset) :
  g !! name = Some (NDataset d) →
  attrs_create name k v g = (<[name := NDataset (set_attr d k v)]> g, Ok tt).
Proof.
  intros Hg. unfold attrs_create, bind, get_dataset, modify. by rewrite Hg.
Qed.

(** The first write of an image feature: the batch of frames, tagged. *)
Lemma write_image_grayscale_fresh (self : RTDCWriter) (name : string)
    (data : ndarray) (g : group) :
  wf_ndarray data → storable (image_batch data) → g !! name = None →
  write_image_grayscale self name data g
  = (<[name := NDataset (tagged (created self (image_batch data) None))]> g,
     Ok tt).
Proof.
  intros Hwf Hst Hg. pose proof (image_batch_wf data Hwf) as Hwfb.
  unfold write_image_grayscale.
  erewrite bind_ok by (by apply write_ndarray_fresh).
  erewrite bind_ok by (apply attrs_create_eq, lookup_insert_eq).
  rewrite insert_insert_eq.
  erewrite bind_ok by (apply attrs_create_eq, lookup_insert_eq).
  rewrite insert_insert_eq.
  erewrite attrs_create_eq by apply lookup_insert_eq.
  by rewrite insert_insert_eq.
Qed.


(** ** [store_feature] in mode [replace] *)

Section Replace.

Context (dfn : definitions) (self : RTDCWriter).






End Replace.

(** ** [write_ragged] *)

Lemma dense_empty : dense 0 ∅.
Proof. unfold dense. simpl. apply dom_empty_L. Qed.

Lemma dense_size (k : nat) (grp : group) : dense k grp → size grp = k.
Proof.
  unfold dense. intros Hd. rewrite <- size_dom, Hd.
  rewrite size_list_to_set.
  - by rewrite length_fmap, length_seq.
  - apply NoDup_fmap; [apply _|apply NoDup_seq].
Qed.

Lemma dense_next_free (k : nat) (grp : group) :
  dense k grp → grp !! pretty k = None.
Proof.
  unfold dense. intros Hd. apply not_elem_of_dom. rewrite Hd.
  rewrite elem_of_list_to_set, list_elem_of_fmap.
  intros (i & Hi%(inj pretty) & Hin). subst i.
  apply elem_of_seq in Hin. lia.
Qed.

Lemma dense_insert (k : nat) (grp : group) (x : node) :
  dense k grp → dense (S k) (<[pretty k := x]> grp).
Proof.
  unfold dense. intros Hd. rewrite dom_insert_L, Hd, seq_S, fmap_app.
  rewrite list_to_set_app_L. simpl. set_solver.
Qed.





(** ** [write_text] *)

Lemma encode_lines_all (lines : list line) :
  ∀ (m : nat) (acc : list (list byte)),
    encode_lines m acc lines =
    match encode_all lines with
    | Ok bs => Ok (m `max` longest bs, acc ++ bs)
    | Raise e => Raise e
    end.
Proof.
  induction lines as [|l lines IH]; intros m acc; simpl.
  - by rewrite Nat.max_0_r, app_nil_r.
  - destruct (line_bytes l) as [b|e]; [|done].
    rewrite IH. destruct (encode_all lines) as [bs|e]; [|done].
    simpl. rewrite <- app_assoc. do 2 f_equal. lia.
Qed.

Lemma set_lines_id (t : text_dataset) : set_lines t (td_lines t) = t.
Proof. by destruct t. Qed.

(** A line that fits the width is stored whole, then zero bytes. *)
Lemma fit_whole (w : nat) (b : list byte) :
  length b ≤ w → fit w b = b ++ replicate (w - length b) x00.
Proof. intros Hb. unfold fit. by rewrite take_ge. Qed.

Lemma longest_ge (bs : list (list byte)) (b : list byte) :
  b ∈ bs → length b ≤ longest bs.
Proof.
  induction bs as [|b' bs IH]; [by intros ?%elem_of_nil|].
  intros [->|Hin]%elem_of_cons; simpl; [lia|]. specialize (IH Hin). lia.
Qed.

(** The loop that writes the lines (writer.py:325-326). *)
Lemma text_loop (name : string) (o : nat) (bs : list (list byte)) :
  ∀ (j : nat) (g : group) (t : text_dataset),
    g !! name = Some (NText t) →
    o + j + length bs ≤ length (td_lines t) →
    for_ (imap (λ i lbytes, (j + i, lbytes)) bs) (λ '(ii, lbytes),
      setitem_text name (o + ii) lbytes) g
    = (<[name := NText (set_lines t
          (take (o + j) (td_lines t) ++ (fit (td_width t) <$> bs)
           ++ drop (o + j + length bs) (td_lines t)))]> g, Ok tt).
Proof.
  induction bs as [|b bs IH]; intros j g t Hg Hlen.
  - simpl. rewrite Nat.add_0_r, take_drop, set_lines_id.
    unfold ret. by rewrite insert_id.
  - simpl in *. unfold bind, setitem_text at 1, bind, get_text_dataset.
    rewrite Hg, Nat.add_0_r.
    rewrite bool_decide_eq_true_2 by lia. unfold modify.
    erewrite (imap_ext _ (λ i lbytes, (S j + i, lbytes)));
      [|intros; simpl; f_equal; lia].
    rewrite (IH (S j) _ (set_lines t (<[o + j := fit (td_width t) b]> (td_lines t))));
      [|apply lookup_insert_eq|simpl; rewrite length_insert; lia].
    rewrite insert_insert_eq. do 3 f_equal. unfold set_lines. simpl. f_equal.
    rewrite (insert_take_drop (td_lines t) (o + j)) by lia.
    replace (o + S j) with (S (o + j)) by lia.
    set (A := take (o + j) (td_lines t)).
    set (x := fit (td_width t) b).
    set (D := drop (S (o + j)) (td_lines t)).
    assert (HA : length (A ++ [x]) = S (o + j)).
    { rewrite length_app. unfold A. rewrite length_take. simpl. lia. }
    replace (A ++ x :: D) with ((A ++ [x]) ++ D)
      by (by rewrite <- app_assoc).
    rewrite take_app_length' by done.
    rewrite <- drop_drop, drop_app_length' by done.
    rewrite <- app_assoc. simpl. do 3 f_equal.
    unfold D. rewrite drop_drop. f_equal. lia.
Qed.

Lemma encode_all_length (lines : list line) (bs : list (list byte)) :
  encode_all lines = Ok bs → length bs = length lines.
Proof.
  revert bs. induction lines as [|l lines IH]; intros bs; simpl.
  - by intros [= <-].
  - destruct (line_bytes l) as [b|e]; [|done].
    destruct (encode_all lines) as [bs'|e]; [|done].
    intros [= <-]. simpl. by rewrite (IH bs').
Qed.

(** A call that creates the dataset: the name is free, or the mode is
    [replace]. *)
Lemma write_text_creates (self : RTDCWriter) (name : string)
    (lines : text_lines) (g : group) (bs : list (list byte)) :
  encode_all (lines_of lines) = Ok bs →
  g !! name = None ∨ mode self = replace →
  write_text self name lines g
  = (<[name := NText (created_text self bs)]> g, Ok tt).
Proof.
  intros Henc Hnew. pose proof (encode_all_length _ _ Henc) as Hlen.
  unfold write_text. unfold bind at 1, contains at 1, gets.
  assert (Hdel : ∃ g1, (if bool_decide (is_Some (g !! name))
                           && bool_decide (mode self = replace)
                        then del name else ret tt) g = (g1, Ok tt)
                       ∧ g1 !! name = None
                       ∧ ∀ x : node, <[name := x]> g1 = <[name := x]> g).
  { unfold del, modify, ret.
    destruct (g !! name) as [nd|] eqn:Hg.
    - destruct Hnew as [|Hm]; [done|].
      rewrite !bool_decide_eq_true_2 by done. simpl.
      eexists. split_and!; [done|apply lookup_delete_eq|].
      intros x. apply insert_delete_eq.
    - rewrite bool_decide_eq_false_2 by (by intros [? ?]). simpl.
      by exists g. }
  destruct Hdel as (g1 & Hdel & Hg1 & Hins).
  erewrite bind_ok by exact Hdel.
  rewrite encode_lines_all, Henc. unfold lift_result at 1, bind at 1.
  erewrite (bind_ok (contains name)) by reflexivity.
  rewrite bool_decide_eq_false_2 by (rewrite Hg1; by intros [? ?]).
  change (negb false) with true. cbv iota.
  erewrite bind_ok; cycle 1.
  { erewrite bind_ok; [reflexivity|].
    unfold create_text_dataset.
    by rewrite bool_decide_eq_false_2 by (rewrite Hg1; by intros [? ?]). }
  simpl app.
  change (enumerate bs) with (imap (λ i lbytes, (0 + i, lbytes)) bs).
  erewrite (text_loop name 0 bs 0);
    [|apply lookup_insert_eq|simpl; rewrite length_replicate; lia].
  rewrite insert_insert_eq, Hins. do 3 f_equal.
  unfold set_lines, created_text. simpl. f_equal.
  rewrite drop_ge by (rewrite length_replicate; lia).
  by rewrite app_nil_r.
Qed.

(** A call that appends to a dataset of strings. *)
Lemma write_text_appends (self : RTDCWriter) (name : string)
    (lines : text_lines) (g : group) (t : text_dataset)
    (bs : list (list byte)) :
  encode_all (lines_of lines) = Ok bs →
  mode self ≠ replace →
  g !! name = Some (NText t) →
  text_resizable_to t (length (td_lines t) + length bs) →
  write_text self name lines g
  = (<[name := NText (appended_text t bs)]> g, Ok tt).
Proof.
  intros Henc Hmode Hg Hmax. pose proof (encode_all_length _ _ Henc) as Hlen.
  unfold write_text.
  unfold bind at 1, contains at 1, gets.
  rewrite (bool_decide_eq_false_2 (mode self = replace)) by done.
  rewrite andb_false_r. erewrite bind_ok by reflexivity.
  rewrite encode_lines_all, Henc. unfold lift_result at 1, bind at 1.
  erewrite (bind_ok (contains name)) by reflexivity.
  rewrite bool_decide_eq_true_2 by (by rewrite Hg).
  change (negb true) with false. cbv iota.
  unfold text_resizable_to in Hmax. rewrite <- Hlen.
  assert (Hok : (match td_maxshape t with
                 | None => true
                 | Some m => bool_decide (length (td_lines t) + length bs ≤ m)
                 end) = true).
  { destruct (td_maxshape t); [by apply bool_decide_eq_true_2|done]. }
  erewrite bind_ok; cycle 1.
  { erewrite (bind_ok (get_text_dataset name))
      by (unfold get_text_dataset; by rewrite Hg).
    erewrite bind_ok; [reflexivity|].
    unfold resize_text.
    erewrite (bind_ok (get_text_dataset name))
      by (unfold get_text_dataset; by rewrite Hg).
    rewrite Hok. reflexivity. }
  simpl app.
  change (enumerate bs) with (imap (λ i lbytes, (0 + i, lbytes)) bs).
  erewrite (text_loop name (length (td_lines t)) bs 0);
    [|apply lookup_insert_eq|].
  - rewrite insert_insert_eq. do 3 f_equal.
    unfold set_lines, appended_text, set_lines. simpl. f_equal.
    rewrite Nat.add_0_r.
    rewrite take_app_ge, take_replicate by lia.
    rewrite take_app_length.
    rewrite drop_ge; [by rewrite app_nil_r|].
    rewrite length_app, length_replicate. lia.
  - simpl. rewrite take_app_ge, take_replicate by lia.
    rewrite length_app, length_replicate. lia.
Qed.

Lemma appended_text_nil (t : text_dataset) : appended_text t [] = t.
Proof. unfold appended_text. simpl. rewrite app_nil_r. apply set_lines_id. Qed.

Lemma appended_text_app (t : text_dataset) (bs1 bs2 : list (list byte)) :
  appended_text (appended_text t bs1) bs2 = appended_text t (bs1 ++ bs2).
Proof.
  unfold appended_text, set_lines. simpl. by rewrite fmap_app, app_assoc.
Qed.

(** Calls that append, one after the other. *)
Lemma write_text_calls (self : RTDCWriter) (name : string)
    (calls : list text_lines) :
  ∀ (g : group) (t0 : text_dataset) (bss : list (list (list byte))),
    mode self ≠ replace →
    g !! name = Some (NText t0) → td_maxshape t0 = None →
    Forall2 (λ c bs, encode_all (lines_of c) = Ok bs) calls bss →
    for_ calls (write_text self name) g
    = (<[name := NText (appended_text t0 (concat bss))]> g, Ok tt).
Proof.
  induction calls as [|c calls IH]; intros g t0 bss Hmode Hg Hmax Henc.
  - apply Forall2_nil_inv_l in Henc as ->. simpl.
    rewrite appended_text_nil. unfold ret. by rewrite insert_id.
  - apply Forall2_cons_inv_l in Henc as (bs & bss' & Hc & Hrest & ->).
    simpl. erewrite bind_ok; cycle 1.
    { apply (write_text_appends self name c g t0 bs); [done..|].
      unfold text_resizable_to. by rewrite Hmax. }
    erewrite IH; [|done|apply lookup_insert_eq|done|done].
    by rewrite insert_insert_eq, appended_text_app.
Qed.

(** C3, as the code has it: the width of the array of byte strings is
    fixed by the call that creates it, as the larger of 100 and the
    length in bytes of the longest line of that call; calls that append
    (mode [append] or [reset]) leave it as it is, whatever the length of
    their lines, and in mode [replace] every call creates the array
    anew.  A line not longer than the width is stored whole. *)
Theorem write_text_width_of_creating_call (self : RTDCWriter) (name : string) :
  (∀ (first : text_lines) (rest : list text_lines) (g : group)
     (bs : list (list byte)) (bss : list (list (list byte))),
     mode self ≠ replace → g !! name = None →
     encode_all (lines_of first) = Ok bs →
     Forall2 (λ c b, encode_all (lines_of c) = Ok b) rest bss →
     ∃ t : text_dataset,
       for_ (first :: rest) (write_text self name) g
       = (<[name := NText t]> g, Ok tt)
       ∧ td_width t = 100 `max` longest bs
       ∧ td_lines t = fit (td_width t) <$> (bs ++ concat bss))
  ∧ (∀ (calls : list text_lines) (g : group) (t0 : text_dataset)
       (bss : list (list (list byte))),
       mode self ≠ replace →
       g !! name = Some (NText t0) → td_maxshape t0 = None →
       Forall2 (λ c b, encode_all (lines_of c) = Ok b) calls bss →
       ∃ t : text_dataset,
         for_ calls (write_text self name) g = (<[name := NText t]> g, Ok tt)
         ∧ td_width t = td_width t0
         ∧ td_lines t = td_lines t0 ++ (fit (td_width t0) <$> concat bss))
  ∧ (∀ (lines : text_lines) (g : group) (bs : list (list byte)),
       mode self = replace →
       encode_all (lines_of lines) = Ok bs →
       ∃ t : text_dataset,
         write_text self name lines g = (<[name := NText t]> g, Ok tt)
         ∧ td_width t = 100 `max` longest bs
         ∧ td_lines t = fit (td_width t) <$> bs)
  ∧ (∀ (w : nat) (b : list byte),
       length b ≤ w → fit w b = b ++ replicate (w - length b) x00).
Proof.
  split_and!.
  - intros first rest g bs bss Hmode Hg Hfirst Hrest.
    exists (appended_text (created_text self bs) (concat bss)). split_and!.
    + simpl. erewrite bind_ok
        by (apply (write_text_creates self name first g bs); [done|by left]).
      erewrite write_text_calls; [|done|apply lookup_insert_eq|done|done].
      by rewrite insert_insert_eq.
    + done.
    + simpl. by rewrite fmap_app.
  - intros calls g t0 bss Hmode Hg Hmax Henc.
    exists (appended_text t0 (concat bss)).
    split_and!; [by apply write_text_calls|done..].
  - intros lines g bs Hmode Henc. exists (created_text self bs).
    split_and!; [|done..].
    apply write_text_creates; [done|by right].
  - apply fit_whole.
Qed.

(** C3 as it is stated fails: a line of one byte creates an array of
    width 100, a line of 101 bytes appended in the same session leaves
    the width at 100, not at 101, and only its first 100 bytes are
    stored. *)
Lemma write_text_session_width_counterexample :
  ∃ t : text_dataset,
    for_ [Lines [short_line]; Lines [long_line]]
      (write_text sample_writer "log") ∅
    = (<["log" := NText t]> ∅, Ok tt)
    ∧ encode_all [short_line; long_line]
      = Ok [[x61]; replicate 101 x78]
    ∧ td_width t ≠ 100 `max` longest [[x61]; replicate 101 x78]
    ∧ td_lines t !! 1 = Some (replicate 100 x78).
Proof.
  exists (appended_text (created_text sample_writer [[x61]])
            [replicate 101 x78]).
  split_and!.
  - vm_compute. reflexivity.
  - reflexivity.
  - vm_compute. lia.
  - vm_compute. reflexivity.
Qed.



(** ** Dictionaries *)

Lemma dict_get_Some {V} (k : string) (d : dict V) (v : V) :
  dict_get k d = Some v → (k, v) ∈ d.
Proof.
  induction d as [|[k' v'] d IH]; simpl; [done|].
  case_bool_decide as Hk.
  - intros [= <-]. subst. apply elem_of_cons. by left.
  - intros Hd. apply elem_of_cons. right. by apply IH.
Qed.

Lemma dict_get_None {V} (k : string) (d : dict V) :
  k ∉ d.*1 → dict_get k d = None.
Proof.
  induction d as [|[k' v'] d IH]; simpl; [done|].
  intros Hk. apply not_elem_of_cons in Hk as [Hne Hk].
  rewrite bool_decide_eq_false_2 by done. by apply IH.
Qed.

Lemma dict_get_set_eq {V} (k : string) (v : V) (d : dict V) :
  dict_get k (dict_set k v d) = Some v.
Proof.
  induction d as [|[k' v'] d IH]; simpl.
  - by rewrite bool_decide_eq_true_2.
  - case_bool_decide as Hk; simpl.
    + by rewrite bool_decide_eq_true_2.
    + by rewrite bool_decide_eq_false_2.
Qed.

Lemma dict_set_keys {V} (k : string) (v : V) (d : dict V) :
  k ∈ d.*1 → (dict_set k v d).*1 = d.*1.
Proof.
  induction d as [|[k' v'] d IH]; simpl; [by intros ?%elem_of_nil|].
  case_bool_decide as Hk; simpl.
  - subst. done.
  - intros [?|Hin]%elem_of_cons; [done|]. f_equal. by apply IH.
Qed.

Lemma dict_get_keys {V} (k : string) (d : dict V) (v : V) :
  dict_get k d = Some v → k ∈ d.*1.
Proof.
  intros Hd%dict_get_Some. apply list_elem_of_fmap. by exists (k, v).
Qed.

(** Setting a key that is there changes the value of that key only. *)
Lemma dict_set_Forall {V} (P : V → Prop) (k : string) (v : V) (d : dict V) :
  Forall (λ kv, P kv.2) d → P v → Forall (λ kv, P kv.2) (dict_set k v d).
Proof.
  intros Hd Hv. induction d as [|[k' v'] d IH]; simpl.
  - by apply Forall_singleton.
  - apply Forall_cons in Hd as [Hhd Htl]. case_bool_decide.
    + by apply Forall_cons.
    + apply Forall_cons. split; [done|]. by apply IH.
Qed.

(** A loop raises what its body raised on one of the elements. *)
Lemma for_raise {S A} (l : list A) (body : A → M S unit) (s s' : S) (e : error) :
  for_ l body s = (s', Raise e) →
  ∃ x s0, x ∈ l ∧ body x s0 = (s', Raise e).
Proof.
  revert s. induction l as [|x l IH]; intros s; simpl; [done|].
  unfold bind. destruct (body x s) as [s1 [[]|e1]] eqn:Hx.
  - intros (y & s0 & Hy & Hb)%IH. exists y, s0. split; [|done].
    apply elem_of_cons. by right.
  - intros [= <- <-]. exists x, s. split; [|done]. apply elem_of_cons. by left.
Qed.

(** A loop raises when its body raises on one of the elements, whatever
    the store. *)
Lemma for_raises {S A} (l : list A) (body : A → M S unit) (s : S) (x : A) :
  x ∈ l → (∀ s0, ∃ e, (body x s0).2 = Raise e) →
  ∃ e, (for_ l body s).2 = Raise e.
Proof.
  intros Hx Hbody. revert s.
  induction l as [|y l IH]; intros s; [by apply elem_of_nil in Hx|].
  simpl. unfold bind. destruct (body y s) as [s1 [[]|e1]] eqn:Hy.
  - apply elem_of_cons in Hx as [->|Hx]; [|by apply IH].
    destruct (Hbody s) as [e He]. rewrite Hy in He. done.
  - by exists e1.
Qed.

(** What the body of a loop keeps, the loop keeps. *)
Lemma for_preserves {S A B} (proj : S → B) (l : list A) (body : A → M S unit)
    (s : S) :
  (∀ x s0, x ∈ l → proj (body x s0).1 = proj s0) →
  proj (for_ l body s).1 = proj s.
Proof.
  revert s. induction l as [|x l IH]; intros s Hbody; simpl; [done|].
  unfold bind. pose proof (Hbody x s (list_elem_of_here x l)) as Hx.
  destruct (body x s) as [s1 [[]|e1]]; simpl in *; [|done].
  rewrite IH; [done|]. intros y s0 Hy. apply Hbody. by apply list_elem_of_further.
Qed.

(** The name of the attribute of the software version is the name of
    one section and one key only. *)
Lemma version_key_split (sec ck : string) :
  sec +:+ ":" +:+ ck = "setup:software version" →
  sec = "setup" ∧ ck = "software version".
Proof.
  intros H.
  repeat (destruct sec as [|? sec]; simpl in H;
          [first [discriminate H | by injection H as <-]
          |first [discriminate H | injection H as -> H]]).
Qed.

(** ** [store_metadata] *)

Section Metadata.

Context (dfn : definitions).
Context (py_format : value → string).
Context (bytes_decode : list byte → option string).

Let check_keys (sec : string) (keys : dict value) : M h5file unit :=
  for_ keys (λ '(ck, _),
    if negb (config_key_exists dfn sec ck) then raise (KeyNotDefined sec ck)
    else ret tt).

(** The check writes nothing. *)
Lemma check_metadata_state (meta : dict (dict value)) (f : h5file) :
  (check_metadata dfn meta f).1 = f.
Proof.
  apply for_unchanged. intros [sec keys] s0.
  case_bool_decide; [done|]. case_bool_decide; [|done]. simpl.
  apply for_unchanged. intros [ck v] s1.
  by destruct (config_key_exists dfn sec ck).
Qed.

(** The check raises the errors of the check only. *)
Lemma check_metadata_error (meta : dict (dict value)) (f f' : h5file)
    (e : error) :
  check_metadata dfn meta f = (f', Raise e) → validation_error e.
Proof.
  intros ([sec keys] & s0 & _ & Hbody)%for_raise. revert Hbody.
  case_bool_decide; [done|]. case_bool_decide; simpl.
  - intros ([ck v] & s1 & _ & Hkey)%for_raise. revert Hkey.
    destruct (config_key_exists dfn sec ck); [done|]. simpl.
    intros [= _ <-]. right. by exists sec, ck.
  - intros [= _ <-]. left. by exists sec.
Qed.

(** The check raises when a section or a key is not defined. *)
Lemma check_metadata_complete (meta : dict (dict value)) (f : h5file) :
  undefined_metadata dfn meta →
  ∃ e, check_metadata dfn meta f = (f, Raise e) ∧ validation_error e.
Proof.
  intros (sec & keys & Hin & Huser & Hbad).
  destruct (for_raises meta (λ '(sec, keys),
      if bool_decide (sec = "user") then ret tt
      else if negb (bool_decide (sec ∈ CFG_METADATA dfn))
           then raise (SectionNotDefined sec)
           else check_keys sec keys) f (sec, keys) Hin) as [e He].
  { intros s0. rewrite bool_decide_eq_false_2 by done.
    destruct Hbad as [Hsec|(ck & v & Hck & Hno)].
    - rewrite bool_decide_eq_false_2 by done. by eexists.
    - case_bool_decide; simpl; [|by eexists].
      apply (for_raises keys _ s0 (ck, v) Hck).
      intros s1. rewrite Hno. by eexists. }
  exists e. pose proof (check_metadata_state meta f) as Hst.
  unfold check_metadata, check_keys in *.
  destruct (for_ meta _ f) as [f' r] eqn:Hcheck. simpl in *. subst.
  split; [done|]. eapply check_metadata_error. exact Hcheck.
Qed.

(** The writes raise other errors than the check. *)
Lemma write_metadata_error (meta : dict (dict value)) (f f' : h5file)
    (e : error) :
  write_metadata dfn bytes_decode meta f = (f', Raise e) →
  ¬ validation_error e.
Proof.
  intros ([sec keys] & s0 & _ & Hbody)%for_raise.
  apply for_raise in Hbody as ([ck v] & s1 & _ & Hkey). revert Hkey.
  unfold write_attribute, bind.
  assert (Hwrite : ∀ (v' : value) (s2 : h5file),
    (if bool_decide (sec = "user")
     then attrs_set (sec +:+ ":" +:+ ck) v'
     else match get_config_value_func dfn sec ck with
          | Some convfunc =>
              match convfunc v' with
              | Some v0 => attrs_set (sec +:+ ":" +:+ ck) v0
              | None => raise (ConversionFailed sec ck)
              end
          | None => raise (ConversionFailed sec ck)
          end) s2 = (f', Raise e) → ¬ validation_error e).
  { intros v' s2. case_bool_decide; [done|].
    destruct (get_config_value_func dfn sec ck) as [conv|];
      [destruct (conv v')|]; try done;
      intros [= _ <-] [[? ?]|(? & ? & ?)]; done. }
  destruct v as [s|b|z]; simpl; try apply Hwrite.
  destruct (bytes_decode b); simpl; [apply Hwrite|].
  intros [= _ <-] [[? ?]|(? & ? & ?)]; done.
Qed.

(** C9: [store_metadata] checks every section and every key before it
    writes: with a section or a key that is not defined it raises the
    error of the check and the container is as it was, and whenever it
    raises one of these two errors the container, and so every attribute
    of its root, is as it was before the call. *)
Theorem store_metadata_checks_first (meta : dict (dict value))
    (version_brand : bool) (f : h5file) :
  (undefined_metadata dfn meta →
   ∃ e, store_metadata dfn py_format bytes_decode meta version_brand f
        = (f, Raise e) ∧ validation_error e)
  ∧ (∀ (f' : h5file) (e : error),
       store_metadata dfn py_format bytes_decode meta version_brand f
       = (f', Raise e) →
       validation_error e → f' = f).
Proof.
  split.
  - intros Hbad.
    destruct (check_metadata_complete meta f Hbad) as (e & Hcheck & He).
    exists e. split; [|done]. unfold store_metadata, bind. by rewrite Hcheck.
  - intros f' e. unfold store_metadata, bind.
    pose proof (check_metadata_state meta f) as Hst.
    destruct (check_metadata dfn meta f) as [f1 [[]|e1]] eqn:Hcheck;
      simpl in Hst; subst f1.
    + unfold gets. intros Hw Hval.
      by apply write_metadata_error in Hw.
    + by intros [= <- <-].
Qed.

(** An attribute is written under the name of its section and key. *)
Lemma write_attribute_frame (sec ck : string) (v : value) (f : h5file)
    (k : string) :
  sec +:+ ":" +:+ ck ≠ k →
  attrs (write_attribute dfn bytes_decode sec (ck, v) f).1 !! k = attrs f !! k.
Proof.
  intros Hk. unfold write_attribute, bind.
  assert (Hwrite : ∀ v' : value,
    attrs ((if bool_decide (sec = "user")
            then attrs_set (sec +:+ ":" +:+ ck) v'
            else match get_config_value_func dfn sec ck with
                 | Some convfunc =>
                     match convfunc v' with
                     | Some v0 => attrs_set (sec +:+ ":" +:+ ck) v0
                     | None => raise (ConversionFailed sec ck)
                     end
                 | None => raise (ConversionFailed sec ck)
                 end) f).1 !! k = attrs f !! k).
  { intros v'. case_bool_decide; simpl; [by rewrite lookup_insert_ne|].
    destruct (get_config_value_func dfn sec ck) as [conv|];
      [destruct (conv v')|]; simpl; try done.
    by rewrite lookup_insert_ne. }
  destruct v as [s|b|z]; simpl; try apply Hwrite.
  destruct (bytes_decode b); simpl; [apply Hwrite|done].
Qed.

Lemma write_keys_frame (sec : string) (keys : dict value) (f : h5file)
    (k : string) :
  (∀ ck, ck ∈ keys.*1 → sec +:+ ":" +:+ ck ≠ k) →
  attrs (for_ keys (write_attribute dfn bytes_decode sec) f).1 !! k
  = attrs f !! k.
Proof.
  intros Hk. apply (for_preserves (λ f, attrs f !! k)).
  intros [ck v] s0 Hin. apply write_attribute_frame, Hk.
  apply list_elem_of_fmap. by exists (ck, v).
Qed.

Lemma write_metadata_frame (meta : dict (dict value)) (f : h5file)
    (k : string) :
  (∀ sec keys ck, (sec, keys) ∈ meta → ck ∈ keys.*1 →
                  sec +:+ ":" +:+ ck ≠ k) →
  attrs (write_metadata dfn bytes_decode meta f).1 !! k = attrs f !! k.
Proof.
  intros Hk. apply (for_preserves (λ f, attrs f !! k)).
  intros [sec keys] s0 Hin. apply write_keys_frame.
  intros ck Hck. by apply (Hk sec keys).
Qed.

(** The version of the metadata, a string, is what the attribute holds
    after the writes, when the converter of the key is [str]. *)
Lemma write_keys_version (keys : dict value) (f f' : h5file) (s : string)
    (conv : value → option value) :
  get_config_value_func dfn "setup" "software version" = Some conv →
  conv (VStr s) = Some (VStr s) →
  dict_wf keys →
  dict_get "software version" keys = Some (VStr s) →
  for_ keys (write_attribute dfn bytes_decode "setup") f = (f', Ok tt) →
  attrs f' !! "setup:software version" = Some (VStr s).
Proof.
  intros Hconv Hstr. unfold dict_wf. revert f.
  induction keys as [|[ck v] keys IH]; intros f Hwf Hget; [done|].
  simpl in Hwf, Hget. apply NoDup_cons in Hwf as [Hck Hwf].
  rewrite for_cons.
  destruct (write_attribute dfn bytes_decode "setup" (ck, v) f)
    as [f1 [[]|e]] eqn:Hw; [|intros ?; discriminate].
  intros Hrest. case_bool_decide as Hk.
  - injection Hget as ->. subst ck.
    pose proof (write_keys_frame "setup" keys f1 "setup:software version")
      as Hfr.
    rewrite Hrest in Hfr. simpl in Hfr. rewrite Hfr.
    + revert Hw. unfold write_attribute, bind, ret.
      rewrite bool_decide_eq_false_2 by done. rewrite Hconv, Hstr.
      unfold attrs_set, modify. intros [= <-]. simpl.
      apply lookup_insert_eq.
    + intros ck Hin [_ ->]%version_key_split. done.
  - by apply (IH f1).
Qed.

Lemma write_metadata_version (meta : dict (dict value)) (keys : dict value)
    (f f' : h5file) (s : string) (conv : value → option value) :
  get_config_value_func dfn "setup" "software version" = Some conv →
  conv (VStr s) = Some (VStr s) →
  meta_wf meta →
  dict_get "setup" meta = Some keys →
  dict_get "software version" keys = Some (VStr s) →
  write_metadata dfn bytes_decode meta f = (f', Ok tt) →
  attrs f' !! "setup:software version" = Some (VStr s).
Proof.
  intros Hconv Hstr [Hwf Hin]. unfold dict_wf in Hwf. revert f.
  induction meta as [|[sec ks] meta IH]; intros f Hget Hver; [done|].
  simpl in Hwf, Hget. apply NoDup_cons in Hwf as [Hsec Hwf].
  apply Forall_cons in Hin as [Hks Hin].
  unfold write_metadata. rewrite for_cons.
  destruct (for_ ks (write_attribute dfn bytes_decode sec) f)
    as [f1 [[]|e]] eqn:Hw; [|intros ?; discriminate].
  intros Hrest. case_bool_decide as Hk.
  - injection Hget as ->. subst sec.
    pose proof (write_metadata_frame meta f1 "setup:software version") as Hfr.
    unfold write_metadata in Hfr. rewrite Hrest in Hfr. simpl in Hfr.
    rewrite Hfr; [by eapply write_keys_version|].
    intros sec ks' ck Hmem Hck [-> _]%version_key_split.
    apply Hsec. apply list_elem_of_fmap. by exists ("setup", ks').
  - by apply (IH Hwf Hin f1).
Qed.

(** C6: with the version branding, an attribute [setup:software
    version] that the container has is left as it is by a call whose
    metadata give no software version, whether the call returns or
    raises; and where the metadata give the version string [V], and the
    converter of that key leaves strings as they are, a call that
    returns leaves ["V | dclab <version>"] in the attribute. *)
Theorem store_metadata_version_brand (meta : dict (dict value)) (f : h5file) :
  (∀ v0 : value,
     attrs f !! "setup:software version" = Some v0 →
     lacks_version meta →
     attrs (store_metadata dfn py_format bytes_decode meta true f).1
       !! "setup:software version" = Some v0)
  ∧ (∀ (setup : dict value) (V : string) (conv : value → option value)
       (f' : h5file),
       meta_wf meta →
       dict_get "setup" meta = Some setup →
       dict_get "software version" setup = Some (VStr V) →
       py_format (VStr V) = V →
       get_config_value_func dfn "setup" "software version" = Some conv →
       (∀ s, conv (VStr s) = Some (VStr s)) →
       store_metadata dfn py_format bytes_decode meta true f = (f', Ok tt) →
       attrs f' !! "setup:software version"
       = Some (VStr (V +:+ " | dclab " +:+ version dfn))).
Proof.
  split.
  - intros v0 Hattr Hlacks. unfold store_metadata, bind.
    pose proof (check_metadata_state meta f) as Hst.
    destruct (check_metadata dfn meta f) as [f1 [[]|e1]] eqn:Hcheck;
      simpl in Hst; subst f1; [|done].
    unfold gets, brand_version.
    assert (Hgives : gives_version meta = false).
    { unfold gives_version.
      destruct (dict_get "setup" meta) as [setup|] eqn:Hs; [|done].
      apply dict_get_Some, Hlacks in Hs. unfold dict_mem.
      rewrite dict_get_None by done. apply bool_decide_eq_false_2.
      by intros [? ?]. }
    rewrite Hgives, bool_decide_eq_true_2 by (by rewrite Hattr). simpl.
    rewrite write_metadata_frame; [done|].
    intros sec keys ck Hin Hck [-> ->]%version_key_split.
    by apply (Hlacks keys).
  - intros setup V conv f' [Hwf Hin] Hsetup Hver Hfmt Hconv Hstr.
    unfold store_metadata, bind.
    pose proof (check_metadata_state meta f) as Hst.
    destruct (check_metadata dfn meta f) as [f1 [[]|e1]] eqn:Hcheck;
      simpl in Hst; subst f1; [|done].
    unfold gets, brand_version.
    assert (Hgives : gives_version meta = true).
    { unfold gives_version, dict_mem. rewrite Hsetup, Hver.
      by apply bool_decide_eq_true_2. }
    rewrite Hgives, orb_true_r, Hsetup. simpl. rewrite Hver, Hfmt.
    unfold dict_mem. rewrite Hsetup.
    rewrite (bool_decide_eq_true_2 (is_Some (Some setup))) by done. simpl.
    intros Hw. rewrite Hsetup in Hw.
    change (default [] (Some setup)) with setup in Hw.
    eapply (write_metadata_version _ _ f f'); [done|apply Hstr| | | |exact Hw].
    + split.
      * unfold dict_wf. rewrite dict_set_keys; [done|].
        by eapply dict_get_keys.
      * apply (dict_set_Forall dict_wf); [done|].
        unfold dict_wf.
        rewrite dict_set_keys by (eapply dict_get_keys; exact Hver).
        rewrite Forall_forall in Hin.
        apply (Hin ("setup", setup)). by apply dict_get_Some.
    + apply dict_get_set_eq.
    + by rewrite dict_get_set_eq.
Qed.

End Metadata.

(** ** Traces *)










Section Traces.

Context (dfn : definitions) (self : RTDCWriter).







Lemma trace_no_image : "trace" ∉ ["image"; "image_bg"; "mask"].
Proof. apply (bool_decide_unpack _). vm_compute. exact I. Qed.

(** The rule for [trace], where it is no scalar feature. *)
Lemma write_feature_trace (traces : dict ndarray) (ev : group) :
  scalar_feature_exists dfn "trace" = false →
  write_feature dfn self "trace" (TraceDict traces) ev
  = for_ traces (store_trace dfn self) ev.
Proof.
  intros Hs. unfold write_feature. rewrite Hs.
  rewrite bool_decide_eq_false_2 by done.
  rewrite bool_decide_eq_false_2 by apply trace_no_image.
  by rewrite bool_decide_eq_true_2.
Qed.


Lemma np_atleast_2d_wf (a : ndarray) :
  wf_ndarray a → wf_ndarray (np_atleast_2d a).
Proof.
  unfold wf_ndarray, np_atleast_2d.
  destruct (shape a) as [|n [|m sh]] eqn:Hs; simpl; rewrite ?Hs; simpl;
    intros ->; lia.
Qed.





End Traces.


(** ** The theorems on the data of the examples *)

Lemma write_ndarray_chunked_eq_bulk_witness :
  wf_ndarray sample_frames ∧ 2 ≤ length (shape sample_frames)
  ∧ write_ndarray sample_writer "frames" sample_frames None
      (<["frames" := NDataset sample_stored_frames]> ∅)
    = write_ndarray_bulk sample_writer "frames" sample_frames None
        (<["frames" := NDataset sample_stored_frames]> ∅).
Proof.
  assert (Hwf : wf_ndarray sample_frames) by (vm_compute; reflexivity).
  assert (Hdim : 2 ≤ length (shape sample_frames)) by (simpl; lia).
  split_and!; [exact Hwf|exact Hdim|].
  apply (write_ndarray_chunked_eq_bulk sample_writer "frames" sample_frames
           None (<["frames" := NDataset sample_stored_frames]> ∅) Hwf Hdim).
  reflexivity.
Defined.


Lemma write_text_width_of_creating_call_witness :
  ∃ t : text_dataset,
    for_ [Lines [short_line]; Lines [long_line]]
      (write_text sample_writer "log") ∅
    = (<["log" := NText t]> ∅, Ok tt)
    ∧ td_width t = 100 `max` longest [[x61]]
    ∧ td_lines t
      = fit (td_width t) <$> ([[x61]] ++ concat [[replicate 101 x78]]).
Proof.
  destruct (write_text_width_of_creating_call sample_writer "log")
    as (Hfirst & _).
  apply (Hfirst (Lines [short_line]) [Lines [long_line]] ∅
           [[x61]] [[replicate 101 x78]]).
  - discriminate.
  - reflexivity.
  - reflexivity.
  - repeat constructor.
Defined.



Lemma store_metadata_version_brand_witness :
  ∃ f' : h5file,
    store_metadata sample_dfn sample_format sample_decode
      [("setup", [("software version", VStr "1.0")])] true empty_file
    = (f', Ok tt)
    ∧ attrs f' !! "setup:software version"
      = Some (VStr "1.0 | dclab 0.32.0")
    ∧ attrs (store_metadata sample_dfn sample_format sample_decode
               [("experiment", [("sample", VStr "beads")])] true f').1
        !! "setup:software version"
      = Some (VStr "1.0 | dclab 0.32.0").
Proof.
  set (meta := [("setup", [("software version", VStr "1.0")])]).
  set (f' := (store_metadata sample_dfn sample_format sample_decode
                meta true empty_file).1).
  assert (Hcall : store_metadata sample_dfn sample_format sample_decode
                    meta true empty_file = (f', Ok tt))
    by (vm_compute; reflexivity).
  destruct (store_metadata_version_brand sample_dfn sample_format
              sample_decode meta empty_file) as (_ & Hgiven).
  assert (Hattr : attrs f' !! "setup:software version"
                  = Some (VStr "1.0 | dclab 0.32.0")).
  { apply (Hgiven [("software version", VStr "1.0")] "1.0"
             (λ v, match v with
                   | VStr s => Some (VStr s)
                   | VNum z => Some (VStr (pretty z))
                   | VBytes _ => None
                   end) f').
    - split; repeat constructor; by intros ?%elem_of_nil.
    - reflexivity.
    - reflexivity.
    - reflexivity.
    - reflexivity.
    - reflexivity.
    - exact Hcall. }
  exists f'. split_and!; [exact Hcall|exact Hattr|].
  destruct (store_metadata_version_brand sample_dfn sample_format
              sample_decode [("experiment", [("sample", VStr "beads")])] f')
    as (Hkept & _).
  apply Hkept; [exact Hattr|].
  intros keys [Heq|Hin]%elem_of_cons; [discriminate|].
  by apply elem_of_nil in Hin.
Defined.



Lemma store_metadata_checks_first_witness :
  ∃ e : error,
    store_metadata sample_dfn sample_format sample_decode
      [("setup", [("channel width", VNum 20)]); ("bogus", [("x", VNum 1)])]
      true empty_file
    = (empty_file, Raise e)
    ∧ validation_error e.
Proof.
  destruct (store_metadata_checks_first sample_dfn sample_format sample_decode
              [("setup", [("channel width", VNum 20)]);
               ("bogus", [("x", VNum 1)])] true empty_file) as (Hraise & _).
  apply Hraise. exists "bogus", [("x", VNum 1)]. split_and!.
  - apply elem_of_cons. right. apply elem_of_cons. by left.
  - discriminate.
  - left. apply (bool_decide_unpack _). vm_compute. exact I.
Defined.


(** * Further properties of the writer *)

(** ** [write_ndarray]: batches, empty data, arrays without an axis *)

Lemma concatenate_created (self : RTDCWriter) (a b : ndarray)
    (dt : option np_dtype) :
  appended (created self a dt) b = created self (np_concatenate a b) dt.
Proof. done. Qed.

(** X1: data written in two calls are stored as the data written in one:
    for two arrays of one dtype whose events have the same shape,
    [write_ndarray] of the first under a free name and then of the
    second leaves the group that one [write_ndarray] of their
    concatenation leaves. *)
Theorem write_ndarray_in_batches (self : RTDCWriter) (name : string)
    (a b : ndarray) (dt' : option np_dtype) (g : group) :
  wf_ndarray a → wf_ndarray b → storable a →
  shape b ≠ [] → tail (shape b) = tail (shape a) →
  dtype b = dtype a →
  g !! name = None →
  (write_ndarray self name a None;;; write_ndarray self name b dt') g
  = write_ndarray self name (np_concatenate a b) None g
  ∧ write_ndarray self name (np_concatenate a b) None g
    = (<[name := NDataset (created self (np_concatenate a b) None)]> g,
       Ok tt).
Proof.
  intros Hwfa Hwfb Hsta Hshb Htail Hdt Hg.
  assert (Hcat : write_ndarray self name (np_concatenate a b) None g
    = (<[name := NDataset (created self (np_concatenate a b) None)]> g,
       Ok tt)).
  { apply write_ndarray_fresh; [|by destruct Hsta|done].
    unfold wf_ndarray, np_concatenate in *. simpl.
    rewrite length_app, Hwfa, Hwfb.
    destruct Hsta as [Hsa _].
    destruct (shape a) as [|n tr]; [done|].
    destruct (shape b) as [|m tr']; [done|]. simpl in *. subst tr'. lia. }
  split; [|exact Hcat]. rewrite Hcat.
  erewrite bind_ok by (by apply write_ndarray_fresh).
  destruct Hsta as [Hsa Hpos].
  rewrite (write_ndarray_append self name b dt' _ (created self a None)).
  - by rewrite insert_insert_eq, concatenate_created.
  - done.
  - exact Hwfa.
  - apply lookup_insert_eq.
  - done.
  - done.
  - done.
  - done.
  - done.
Qed.

(** X2: an array of no event changes nothing: written to a dataset that
    is there, whatever the shape of its events, [write_ndarray] returns
    and leaves the group as it was. *)
Theorem write_ndarray_no_event (self : RTDCWriter) (name : string)
    (data : ndarray) (dt : option np_dtype) (g : group) (d : dataset)
    (trailing : list nat) :
  shape data = 0 :: trailing → flat data = [] →
  g !! name = Some (NDataset d) →
  wf_dataset d → ds_shape d ≠ [] →
  resizable_to d (hd 0 (ds_shape d)) →
  write_ndarray self name data dt g = (g, Ok tt).
Proof.
  intros Hdata Hflat Hg Hwfd Hshd Hmax.
  assert (Hwf : wf_ndarray data)
    by (unfold wf_ndarray; by rewrite Hdata, Hflat).
  rewrite write_ndarray_as_bulk
    by (done || (intros d0 _; left; by rewrite Hdata)).
  destruct (ds_shape d) as [|k dtrail] eqn:Hd; [done|]. simpl in Hmax.
  unfold write_ndarray_bulk.
  assert (Hres : resize_dataset d (k + 0) = Ok d).
  { unfold resize_dataset. rewrite Hd. unfold resizable_to in Hmax.
    destruct (ds_maxshape d) as [|lim rest] eqn:Hlim; [done|].
    rewrite Nat.add_0_r.
    assert (Hok : (match lim with
                   | None => true
                   | Some m => bool_decide (k ≤ m)
                   end) = true)
      by (destruct lim; [by apply bool_decide_eq_true_2|done]).
    rewrite Hok. f_equal. unfold wf_dataset in Hwfd. rewrite Hd in Hwfd.
    simpl in Hwfd. rewrite take_app_length' by done.
    rewrite <- Hd, <- Hlim. by destruct d. }
  erewrite bind_ok; cycle 1.
  { unfold open_dataset. erewrite (bind_ok (contains name)) by reflexivity.
    rewrite bool_decide_eq_true_2 by (by rewrite Hg).
    change (negb true) with false. cbv iota.
    erewrite (bind_ok (get_dataset name))
      by (unfold get_dataset; by rewrite Hg).
    rewrite Hd. erewrite bind_ok by reflexivity.
    unfold len. rewrite Hdata. erewrite bind_ok by reflexivity.
    erewrite bind_ok; [reflexivity|].
    unfold resize. erewrite (bind_ok (get_dataset name))
      by (unfold get_dataset; by rewrite Hg).
    rewrite Hres. erewrite bind_ok by reflexivity.
    unfold modify. by rewrite insert_id. }
  assert (HV : length (flat data) = 0 * prod_list trailing)
    by (by rewrite Hflat).
  assert (Hd' : ds_shape d = (k + 0) :: dtrail)
    by (by rewrite Nat.add_0_r).
  assert (HF : length (ds_flat d) = (k + 0) * prod_list dtrail).
  { unfold wf_dataset in Hwfd. rewrite Hd in Hwfd. simpl in Hwfd.
    by rewrite Nat.add_0_r. }
  rewrite (bulk_copied k 0 dtrail trailing data Hdata HV name g d Hg Hd' HF)
    by (by left).
  by rewrite bool_decide_eq_true_2 by done.
Qed.

(** X3: an array without an axis is refused: [write_ndarray] raises and
    leaves the group as it was, whether the name is free or taken. *)
Theorem write_ndarray_without_axis (self : RTDCWriter) (name : string)
    (data : ndarray) (dt : option np_dtype) (g : group) :
  shape data = [] →
  ∃ e : error, write_ndarray self name data dt g = (g, Raise e).
Proof.
  intros Hdata. unfold write_ndarray, bind, open_dataset, bind, contains, gets.
  case_bool_decide as Hin; simpl.
  - unfold get_dataset. destruct Hin as [nd Hnd]. rewrite Hnd.
    destruct nd as [d| |]; try by eexists.
    destruct (ds_shape d); [by eexists|].
    unfold ret at 1, len. rewrite Hdata. by eexists.
  - unfold create_dataset. rewrite Hdata.
    case_bool_decide as Hrank; [simpl in Hrank; lia|]. by eexists.
Qed.

(** X4: appending keeps what is stored: for a scalar feature whose array
    of [K] values is in the container, [store_feature] in a mode other
    than [replace] with [N] more values of the dtype of that array
    returns and leaves an array of [K + N] values, the first [K] as they
    were and then the new ones. *)
Theorem store_feature_append_keeps (dfn : definitions) (self : RTDCWriter)
    (feat : string) (a : ndarray) (f : h5file) (ev : group) (d : dataset)
    (K N : nat) :
  mode self ≠ replace →
  feature_exists dfn feat = true →
  scalar_feature_exists dfn feat = true →
  wf_ndarray a → shape a = [N] →
  group_at "events" (root f) = Some ev →
  ev !! feat = Some (NDataset d) →
  wf_dataset d → ds_shape d = [K] → resizable_to d (K + N) →
  dtype a = ds_dtype d →
  ∃ d' : dataset,
    store_feature dfn self feat (Array a) f
    = (with_events f (<[feat := NDataset d']> ev), Ok tt)
    ∧ ds_shape d' = [K + N]
    ∧ take K (ds_flat d') = ds_flat d
    ∧ drop K (ds_flat d') = flat a
    ∧ ds_dtype d' = ds_dtype d.
Proof.
  intros Hmode Hfeat Hscalar Hwf Hsa Hev Hd Hwfd Hsd Hmax Hdt.
  exists (appended d a). split.
  - apply (store_feature_in_events dfn self feat (Array a) f ev); [done..|].
    erewrite bind_ok by (apply replace_feature_keeps; by left).
    rewrite write_feature_scalar by done.
    assert (H1d : np_atleast_1d a = a)
      by (unfold np_atleast_1d; by rewrite Hsa).
    rewrite H1d. apply write_ndarray_append; try done.
    + by rewrite Hsa.
    + by rewrite Hsd.
    + by rewrite Hsa, Hsd.
    + by rewrite Hsa, Hsd.
  - unfold wf_dataset in Hwfd. rewrite Hsd in Hwfd. simpl in Hwfd.
    simpl. rewrite Hsa, Hsd. simpl.
    split_and!; [done| | |done].
    + rewrite take_app_length'; [done|lia].
    + rewrite drop_app_length'; [done|lia].
Qed.

(** ** [write_image_grayscale]: the attributes, and frames one after the
    other *)

Lemma attrs_create_inv (name k v : string) (g g' : group) :
  attrs_create name k v g = (g', Ok tt) →
  ∃ d : dataset,
    g !! name = Some (NDataset d)
    ∧ g' = <[name := NDataset (set_attr d k v)]> g.
Proof.
  unfold attrs_create, bind, get_dataset, modify.
  destruct (g !! name) as [[d| |]|]; try done.
  intros [= <-]. by exists d.
Qed.

(** X5: whenever [write_image_grayscale] returns, the dataset it wrote
    carries the three attributes [CLASS = IMAGE], [IMAGE_VERSION = 1.2]
    and [IMAGE_SUBCLASS = IMAGE_GRAYSCALE], on a first write and on
    every later one. *)
Theorem write_image_grayscale_tags (self : RTDCWriter) (name : string)
    (data : ndarray) (g g' : group) :
  write_image_grayscale self name data g = (g', Ok tt) →
  ∃ d : dataset, g' !! name = Some (NDataset d) ∧ image_tags d.
Proof.
  unfold write_image_grayscale, bind.
  destruct (write_ndarray self name (image_batch data) None g)
    as [g1 [[]|e]]; [|done].
  destruct (attrs_create name "CLASS" "IMAGE" g1) as [g2 [[]|e]] eqn:H1;
    [|done].
  destruct (attrs_create name "IMAGE_VERSION" "1.2" g2)
    as [g3 [[]|e]] eqn:H2; [|done].
  intros H3.
  apply attrs_create_inv in H1 as (d1 & Hd1 & ->).
  apply attrs_create_inv in H2 as (d2 & Hd2 & ->).
  apply attrs_create_inv in H3 as (d3 & Hd3 & ->).
  rewrite lookup_insert_eq in Hd2. injection Hd2 as <-.
  rewrite lookup_insert_eq in Hd3. injection Hd3 as <-.
  eexists. split; [apply lookup_insert_eq|].
  unfold image_tags. simpl. split_and!.
  - rewrite lookup_insert_ne by done. rewrite lookup_insert_ne by done.
    apply lookup_insert_eq.
  - rewrite lookup_insert_ne by done. apply lookup_insert_eq.
  - apply lookup_insert_eq.
Qed.

(** X6: frames written in two calls follow each other: for images whose
    frames have the same shape and, as batches of frames, the same
    dtype (a mask counts as [uint8]), [write_image_grayscale] under a
    free name and then once more returns and leaves one dataset that
    holds the frames of the first call, then those of the second, with
    the attributes of an image. *)
Theorem write_image_grayscale_in_batches (self : RTDCWriter) (name : string)
    (a b : ndarray) (g : group) :
  wf_ndarray a → wf_ndarray b →
  storable (image_batch a) →
  tail (shape (image_batch b)) = tail (shape (image_batch a)) →
  dtype (image_batch b) = dtype (image_batch a) →
  g !! name = None →
  ∃ d : dataset,
    (write_image_grayscale self name a;;; write_image_grayscale self name b) g
    = (<[name := NDataset d]> g, Ok tt)
    ∧ ds_shape d = shape (np_concatenate (image_batch a) (image_batch b))
    ∧ ds_flat d = flat (image_batch a) ++ flat (image_batch b)
    ∧ image_tags d.
Proof.
  intros Hwfa Hwfb Hsta Htail Hdt Hg.
  pose proof (image_batch_wf a Hwfa) as Hwa.
  pose proof (image_batch_wf b Hwfb) as Hwb.
  destruct Hsta as [Hsa Hpos].
  assert (Hsb : shape (image_batch b) ≠ []).
  { unfold image_batch. case_bool_decide; simpl; unfold np_atleast_2d;
      destruct (shape b) as [|? [|? [|? ?]]] eqn:Hs; simpl; rewrite ?Hs; done. }
  set (d1 := tagged (created self (image_batch a) None)).
  exists (tagged (appended d1 (image_batch b))). split_and!.
  - erewrite bind_ok by (by apply write_image_grayscale_fresh).
    unfold write_image_grayscale.
    erewrite bind_ok; cycle 1.
    { apply (write_ndarray_append self name (image_batch b) None _ d1);
        [done|exact Hwa|apply lookup_insert_eq|done|done|done|done|done]. }
    rewrite insert_insert_eq.
    erewrite bind_ok by (apply attrs_create_eq, lookup_insert_eq).
    rewrite insert_insert_eq.
    erewrite bind_ok by (apply attrs_create_eq, lookup_insert_eq).
    rewrite insert_insert_eq.
    erewrite attrs_create_eq by apply lookup_insert_eq.
    by rewrite insert_insert_eq.
  - done.
  - done.
  - unfold image_tags. simpl. split_and!; done.
Qed.

(** ** [write_ragged]: what is stored under the names *)

Lemma ragged_loop_events (self : RTDCWriter) (curid : nat)
    (events : list ndarray) :
  ∀ (j : nat) (grp : group),
    dense (curid + j) grp →
    Forall (λ cc, valid_chunks (shape cc)) events →
    ∃ grp' : group,
      for_ (imap (λ i cc, (j + i, cc)) events) (λ '(ii, cc),
        create_dataset_from (pretty (curid + ii)) cc (shape cc) true
          (compression self)) grp
      = (grp', Ok tt)
      ∧ (∀ i cc, events !! i = Some cc →
           grp' !! pretty (curid + j + i)
           = Some (NDataset (stored_event self cc)))
      ∧ (∀ i, i < curid + j → grp' !! pretty i = grp !! pretty i).
Proof.
  induction events as [|cc events IH]; intros j grp Hd Hall.
  - exists grp. by split_and!.
  - apply Forall_cons in Hall as [Hcc Hall].
    rewrite imap_cons, for_cons. unfold create_dataset_from at 1.
    rewrite Nat.add_0_r.
    rewrite bool_decide_eq_true_2 by done.
    rewrite bool_decide_eq_true_2 by done. simpl negb. cbv iota.
    rewrite bool_decide_eq_false_2
      by (rewrite dense_next_free by done; by intros [? ?]).
    destruct (IH (S j) (<[pretty (curid + j) :=
                          NDataset (stored_event self cc)]> grp))
      as (grp' & Hloop & Hnew & Hold); [|done|].
    { replace (curid + S j) with (S (curid + j)) by lia.
      by apply dense_insert. }
    exists grp'. split_and!.
    + rewrite <- Hloop. f_equal. apply imap_ext. intros i x _. simpl.
      f_equal. lia.
    + intros [|i] c Hi; simpl in Hi.
      * injection Hi as <-. rewrite Nat.add_0_r.
        rewrite Hold by lia. apply lookup_insert_eq.
      * replace (curid + j + S i) with (curid + S j + i) by lia.
        by apply Hnew.
    + intros i Hi. rewrite Hold by lia.
      apply lookup_insert_ne. intros Heq%(inj pretty). lia.
Qed.

(** X7: [write_ragged] stores every event as a dataset of its own: in a
    group whose entries are named ["0"] to [k - 1], the event at place
    [i] of the call is found under the name [k + i], with its shape and
    its elements, and the entries that were there are as they were. *)
Theorem write_ragged_events_stored (self : RTDCWriter) (name : string)
    (events : list ndarray) (g grp : group) (k : nat) :
  group_at name g = Some grp → dense k grp →
  Forall (λ cc, valid_chunks (shape cc)) events →
  ∃ grp' : group,
    write_ragged self name (ArrayList events) g
    = (<[name := NGroup grp']> g, Ok tt)
    ∧ (∀ i cc, events !! i = Some cc →
         grp' !! pretty (k + i) = Some (NDataset (stored_event self cc)))
    ∧ (∀ i, i < k → grp' !! pretty i = grp !! pretty i).
Proof.
  intros Hg Hd Hall.
  destruct (ragged_loop_events self k events 0 grp)
    as (grp' & Hloop & Hnew & Hold); [by rewrite Nat.add_0_r|done|].
  exists grp'. split_and!.
  - unfold write_ragged. apply (require_in_group _ _ _ grp); [done|].
    unfold bind, gets, lift_result. simpl. by rewrite (dense_size k).
  - intros i cc Hi. specialize (Hnew i cc Hi).
    by rewrite Nat.add_0_r in Hnew.
  - intros i Hi. apply Hold. lia.
Qed.

(** ** [write_text] and [store_log]: lines that cannot be encoded, no
    line, logs written in several calls *)

Lemma encode_all_surrogate (lines : list line) (s : list N) :
  Str s ∈ lines → utf8_encode s = None →
  encode_all lines = Raise UnicodeError.
Proof.
  intros Hin Hs. induction lines as [|l lines IH];
    [by apply elem_of_nil in Hin|].
  apply elem_of_cons in Hin as [<-|Hin]; simpl.
  - by rewrite Hs.
  - rewrite (IH Hin). destruct l as [s'|b]; simpl; [|done].
    by destruct (utf8_encode s').
Qed.

(** X8: a line that UTF-8 cannot encode stops [write_text] before any
    array is created or resized: it raises the error of the encoding and
    the group is as it was, but for the array of that name, which the
    mode [replace] has deleted by then. *)
Theorem write_text_not_encodable (self : RTDCWriter) (name : string)
    (lines : text_lines) (g : group) (s : list N) :
  Str s ∈ lines_of lines → utf8_encode s = None →
  write_text self name lines g
  = (if bool_decide (mode self = replace) then delete name g else g,
     Raise UnicodeError).
Proof.
  intros Hin Hs. unfold write_text.
  erewrite (bind_ok (contains name)) by reflexivity.
  assert (Hdel : (if bool_decide (is_Some (g !! name))
                     && bool_decide (mode self = replace)
                  then del name else ret tt) g
                 = (if bool_decide (mode self = replace)
                    then delete name g else g, Ok tt)).
  { case_bool_decide as Hpresent; case_bool_decide as Hmode; simpl; try done.
    unfold ret. f_equal. symmetry. apply delete_id.
    destruct (g !! name) eqn:Hg; [|done]. by destruct Hpresent. }
  erewrite bind_ok by exact Hdel.
  rewrite encode_lines_all, (encode_all_surrogate _ s Hin Hs). done.
Qed.

(** X9: a list of no line writes no line, and the empty string is one
    line: under a free name [write_text] of the empty list creates an
    array of width 100 without an entry, appended to an array it leaves
    the group as it was, and [write_text] of the empty string creates an
    array with one entry of 100 zero bytes. *)
Theorem write_text_no_line (self : RTDCWriter) (name : string) (g : group) :
  (g !! name = None →
   write_text self name (Lines []) g
   = (<[name := NText (created_text self [])]> g, Ok tt)
   ∧ td_width (created_text self []) = 100
   ∧ td_lines (created_text self []) = [])
  ∧ (∀ t : text_dataset,
       mode self ≠ replace → g !! name = Some (NText t) →
       text_resizable_to t (length (td_lines t)) →
       write_text self name (Lines []) g = (g, Ok tt))
  ∧ (g !! name = None →
     write_text self name (OneLine (Str [])) g
     = (<[name := NText (created_text self [[]])]> g, Ok tt)
     ∧ td_lines (created_text self [[]]) = [replicate 100 x00]).
Proof.
  split_and!.
  - intros Hg. split_and!; [|done..].
    apply write_text_creates; [done|by left].
  - intros t Hmode Hg Hmax.
    rewrite (write_text_appends self name (Lines []) g t []); try done.
    + by rewrite appended_text_nil, insert_id.
    + simpl. by rewrite Nat.add_0_r.
  - intros Hg. split; [|done].
    apply write_text_creates; [done|by left].
Qed.

(** X10: [store_log] keeps the lines of a log in the order of the calls:
    for a link name that is free in the group of logs, two calls in a
    mode other than [replace] return and leave, under [logs], one array
    with the lines of the first call and then those of the second, each
    in a field of the width the first call has fixed. *)
Theorem store_log_in_order (self : RTDCWriter) (name : string)
    (lines1 lines2 : text_lines) (f : h5file) (lg : group)
    (bs1 bs2 : list (list byte)) :
  link_name name →
  mode self ≠ replace →
  group_at "logs" (root f) = Some lg → lg !! name = None →
  encode_all (lines_of lines1) = Ok bs1 →
  encode_all (lines_of lines2) = Ok bs2 →
  ∃ t : text_dataset,
    (store_log self name lines1;;; store_log self name lines2) f
    = (with_logs f (<[name := NText t]> lg), Ok tt)
    ∧ td_width t = 100 `max` longest bs1
    ∧ length (td_lines t) = length bs1 + length bs2
    ∧ (∀ i b, (bs1 ++ bs2) !! i = Some b →
         td_lines t !! i = Some (fit (td_width t) b))
    ∧ (∀ i b, bs1 !! i = Some b →
         td_lines t !! i = Some (b ++ replicate (td_width t - length b) x00)).
Proof.
  intros _ Hmode Hlg Hnew Henc1 Henc2.
  exists (appended_text (created_text self bs1) bs2).
  assert (Hlines : td_lines (appended_text (created_text self bs1) bs2)
                   = fit (100 `max` longest bs1) <$> (bs1 ++ bs2))
    by (simpl; by rewrite fmap_app).
  split_and!.
  - unfold store_log at 1, on_root.
    erewrite bind_ok; cycle 1.
    { unfold on_root.
      erewrite (require_in_group _ _ _ lg);
        [reflexivity|done|].
      apply (write_text_creates self name lines1 lg bs1); [done|by left]. }
    unfold store_log, on_root. simpl root. simpl attrs.
    erewrite (require_in_group _ _ _ (<[name := NText (created_text self bs1)]> lg));
      [|apply group_at_insert|].
    + unfold with_logs. by rewrite !insert_insert_eq.
    + rewrite (write_text_appends self name lines2 _
                 (created_text self bs1) bs2); try done.
      * by rewrite insert_insert_eq.
      * apply lookup_insert_eq.
  - done.
  - rewrite Hlines, length_fmap, length_app. done.
  - intros i b Hi. rewrite Hlines, list_lookup_fmap, Hi. done.
  - intros i b Hi. rewrite Hlines, list_lookup_fmap.
    rewrite lookup_app_l by (by eapply lookup_lt_Some).
    rewrite Hi. simpl. f_equal. apply fit_whole.
    pose proof (longest_ge bs1 b) as Hle.
    assert (b ∈ bs1) by (apply list_elem_of_lookup; by exists i).
    specialize (Hle H). lia.
Qed.

(** ** [store_metadata]: what it writes and what it leaves *)

Lemma dict_set_keys_new {V} (k : string) (v : V) (d : dict V) :
  k ∉ d.*1 → (dict_set k v d).*1 = d.*1 ++ [k].
Proof.
  induction d as [|[k' v'] d IH]; simpl; [done|].
  intros [Hne Hk]%not_elem_of_cons.
  rewrite bool_decide_eq_false_2 by done. simpl. f_equal. by apply IH.
Qed.

Lemma dict_set_wf {V} (k : string) (v : V) (d : dict V) :
  dict_wf d → dict_wf (dict_set k v d).
Proof.
  unfold dict_wf. intros Hd. destruct (decide (k ∈ d.*1)) as [Hin|Hout].
  - by rewrite dict_set_keys.
  - rewrite dict_set_keys_new by done. apply NoDup_app. split_and!.
    + done.
    + intros x Hx [->|[]%elem_of_nil]%elem_of_cons. done.
    + apply NoDup_singleton.
Qed.

(** The keys of a dictionary after one of them was set. *)
Lemma dict_set_elem {V} (k : string) (v : V) (d : dict V)
    (k' : string) (v' : V) :
  (k', v') ∈ dict_set k v d → (k' = k ∧ v' = v) ∨ (k', v') ∈ d.
Proof.
  induction d as [|[k0 v0] d IH]; simpl.
  - intros [[= -> ->]|[]%elem_of_nil]%elem_of_cons. by left.
  - case_bool_decide as Hk.
    + intros [[= -> ->]|Hin]%elem_of_cons; [by left|].
      right. apply elem_of_cons. by right.
    + intros [[= -> ->]|Hin]%elem_of_cons.
      * right. apply elem_of_cons. by left.
      * destruct (IH Hin) as [?|?]; [by left|].
        right. apply elem_of_cons. by right.
Qed.

Section MetadataWrites.

Context (dfn : definitions).
Context (py_format : value → string).
Context (bytes_decode : list byte → option string).

(** The metadata after the version was set name the keys they named,
    and the software version. *)
Lemma brand_version_keys (f : h5file) (meta : dict (dict value))
    (sec : string) (keys : dict value) (ck : string) :
  (sec, keys) ∈ brand_version dfn py_format f meta → ck ∈ keys.*1 →
  (sec = "setup" ∧ ck = "software version")
  ∨ ∃ keys0, (sec, keys0) ∈ meta ∧ ck ∈ keys0.*1.
Proof.
  unfold brand_version. destruct (_ || _); [|by right; exists keys].
  set (thisver := match dict_get "setup" meta ≫= dict_get "software version"
                  with Some oldver => _ | None => _ end).
  set (meta1 := if negb (dict_mem "setup" meta)
                then dict_set "setup" [] meta else meta).
  assert (Hmeta1 : ∀ s ks c, (s, ks) ∈ meta1 → c ∈ ks.*1 →
                     ∃ keys0, (s, keys0) ∈ meta ∧ c ∈ keys0.*1).
  { intros s ks c Hin Hc. unfold meta1 in Hin.
    destruct (negb (dict_mem "setup" meta)); [|by exists ks].
    apply dict_set_elem in Hin as [[-> ->]|Hin]; [|by exists ks].
    by apply elem_of_nil in Hc. }
  intros Hin Hck. apply dict_set_elem in Hin as [[-> ->]|Hin].
  - apply list_elem_of_fmap in Hck as ([c x] & -> & Hcx). simpl.
    apply dict_set_elem in Hcx as [[-> ->]|Hcx]; [by left|]. right.
    destruct (dict_get "setup" meta1) as [setup|] eqn:Hsetup; simpl in Hcx;
      [|by apply elem_of_nil in Hcx].
    apply dict_get_Some in Hsetup.
    apply (Hmeta1 "setup" setup c); [done|].
    apply list_elem_of_fmap. by exists (c, x).
  - right. by apply (Hmeta1 sec keys ck).
Qed.

Lemma check_metadata_ok (meta : dict (dict value)) (f : h5file) :
  check_metadata dfn meta f
  = (f, (check_metadata dfn meta f).2).
Proof.
  pose proof (check_metadata_state dfn meta f) as Hst.
  destruct (check_metadata dfn meta f) as [f1 r]. simpl in *. by subst.
Qed.

(** X11: [store_metadata] does no array I/O: whatever the metadata, and
    whether it returns or raises, the groups and datasets of the
    container are as they were. *)
Theorem store_metadata_keeps_root (meta : dict (dict value))
    (version_brand : bool) (f : h5file) :
  root (store_metadata dfn py_format bytes_decode meta version_brand f).1
  = root f.
Proof.
  unfold store_metadata, bind. rewrite check_metadata_ok.
  destruct (check_metadata dfn meta f).2 as [[]|e]; [|done].
  unfold gets. apply (for_preserves root). intros [sec keys] s0 _.
  apply (for_preserves root). intros [ck v] s1 _.
  unfold write_attribute, bind.
  assert (Hwrite : ∀ v' : value,
    root ((if bool_decide (sec = "user")
           then attrs_set (sec +:+ ":" +:+ ck) v'
           else match get_config_value_func dfn sec ck with
                | Some convfunc =>
                    match convfunc v' with
                    | Some v0 => attrs_set (sec +:+ ":" +:+ ck) v0
                    | None => raise (ConversionFailed sec ck)
                    end
                | None => raise (ConversionFailed sec ck)
                end) s1).1 = root s1).
  { intros v'. case_bool_decide; [done|].
    destruct (get_config_value_func dfn sec ck) as [conv|];
      [destruct (conv v')|]; done. }
  destruct v as [s|b|z]; simpl; try apply Hwrite.
  destruct (bytes_decode b); simpl; [apply Hwrite|done].
Qed.

(** X12: [store_metadata] writes the attributes it is given and, with
    the version branding, the software version, and no other: an
    attribute whose name is neither [setup:software version] nor the
    name of a section and a key of the metadata is as it was. *)
Theorem store_metadata_other_attributes (meta : dict (dict value))
    (version_brand : bool) (f : h5file) (k : string) :
  k ≠ "setup:software version" →
  (∀ sec keys ck, (sec, keys) ∈ meta → ck ∈ keys.*1 →
                  sec +:+ ":" +:+ ck ≠ k) →
  attrs (store_metadata dfn py_format bytes_decode meta version_brand f).1
    !! k = attrs f !! k.
Proof.
  intros Hk Hother. unfold store_metadata, bind. rewrite check_metadata_ok.
  destruct (check_metadata dfn meta f).2 as [[]|e]; [|done].
  unfold gets. apply write_metadata_frame.
  intros sec keys ck Hin Hck. destruct version_brand; [|by eapply Hother].
  destruct (brand_version_keys f meta sec keys ck Hin Hck)
    as [[-> ->]|(keys0 & Hin0 & Hck0)]; [by intros <-|].
  by apply (Hother sec keys0).
Qed.

End MetadataWrites.

Section MetadataValues.

Context (dfn : definitions).
Context (py_format : value → string).
Context (bytes_decode : list byte → option string).

Lemma write_user_attribute (ck : string) (v v' : value) (f : h5file) :
  decoded bytes_decode v = Some v' →
  write_attribute dfn bytes_decode "user" (ck, v) f
  = ({| attrs := <["user:" +:+ ck := v']> (attrs f); root := root f |}, Ok tt).
Proof.
  intros Hv. unfold write_attribute, bind.
  destruct v as [s|b|z]; simpl in *.
  - by injection Hv as <-.
  - destruct (bytes_decode b); [|done]. by injection Hv as <-.
  - by injection Hv as <-.
Qed.

Lemma write_user_attribute_refused (ck : string) (v : value) (f : h5file) :
  decoded bytes_decode v = None →
  write_attribute dfn bytes_decode "user" (ck, v) f = (f, Raise UnicodeError).
Proof.
  intros Hv. unfold write_attribute, bind.
  destruct v as [s|b|z]; simpl in *; try done.
  by destruct (bytes_decode b).
Qed.

(** Where the loop over the keys of the section [user] returns, every
    key holds its value. *)
Lemma write_user_keys (keys : dict value) :
  ∀ f f' : h5file,
    dict_wf keys →
    for_ keys (write_attribute dfn bytes_decode "user") f = (f', Ok tt) →
    ∀ ck v, dict_get ck keys = Some v →
      ∃ v', decoded bytes_decode v = Some v'
            ∧ attrs f' !! ("user:" +:+ ck) = Some v'.
Proof.
  unfold dict_wf. induction keys as [|[c x] keys IH]; intros f f' Hwf Hloop.
  - done.
  - simpl in Hwf. apply NoDup_cons in Hwf as [Hc Hwf].
    rewrite for_cons in Hloop.
    destruct (decoded bytes_decode x) as [x'|] eqn:Hx.
    2: { by rewrite write_user_attribute_refused in Hloop. }
    rewrite (write_user_attribute c x x') in Hloop by done.
    intros ck v. simpl.
    case_bool_decide as Hk; [|by apply (IH _ f' Hwf Hloop)].
    intros [= <-]. subst ck. exists x'. split; [done|].
    replace f' with
      (for_ keys (write_attribute dfn bytes_decode "user")
         {| attrs := <["user:" +:+ c := x']> (attrs f); root := root f |}).1
      by (by rewrite Hloop).
    rewrite write_keys_frame.
    + apply lookup_insert_eq.
    + intros ck Hin Heq. simpl in Heq. injection Heq as Heq.
      cbv in Heq. by subst ck.
Qed.

(** X13: the metadata of the section [user] are written without a
    check, under [user:<key>] and as they are, bytes decoded to text:
    whatever dclab defines, a call with this section only and without
    the version branding raises no error of the check, and where it
    returns, each key holds its value.  (Whether it returns is for the
    engine to say, writer.py:134-136.) *)
Theorem store_metadata_user_section (keys : dict value) (f : h5file) :
  dict_wf keys →
  (∀ f' e,
     store_metadata dfn py_format bytes_decode [("user", keys)] false f
     = (f', Raise e) → ¬ validation_error e)
  ∧ (∀ f',
       store_metadata dfn py_format bytes_decode [("user", keys)] false f
       = (f', Ok tt) →
       ∀ ck v, dict_get ck keys = Some v →
         ∃ v', decoded bytes_decode v = Some v'
               ∧ attrs f' !! ("user:" +:+ ck) = Some v').
Proof.
  intros Hwf.
  assert (Hcall : store_metadata dfn py_format bytes_decode
                    [("user", keys)] false f
                  = match for_ keys (write_attribute dfn bytes_decode "user") f
                    with
                    | (f', Ok _) => (f', Ok tt)
                    | (f', Raise e) => (f', Raise e)
                    end).
  { unfold store_metadata, bind, check_metadata. rewrite for_cons.
    rewrite bool_decide_eq_true_2 by done. simpl.
    unfold write_metadata. rewrite for_cons.
    by destruct (for_ keys _ f) as [f1 [[]|e1]]. }
  rewrite Hcall.
  destruct (for_ keys (write_attribute dfn bytes_decode "user") f)
    as [f1 [[]|e1]] eqn:Hloop.
  - split; [done|]. intros f' [= <-]. by apply (write_user_keys keys f f1).
  - split; [|done]. intros f' e [= <- <-].
    apply for_raise in Hloop as ([ck v] & s0 & _ & Hbody).
    destruct (decoded bytes_decode v) as [v'|] eqn:Hv.
    + by rewrite (write_user_attribute ck v v') in Hbody.
    + rewrite write_user_attribute_refused in Hbody by done.
      injection Hbody as _ <-. intros [[sec [= ]]|(sec & ck' & [= ])].
Qed.

(** X14: the first call stamps the version: where the container has no
    attribute [setup:software version] and the metadata give none, a
    call with the version branding that returns leaves ["dclab
    <version>"] in the attribute, whether or not the metadata have a
    section [setup]. *)
Theorem store_metadata_first_version (meta : dict (dict value))
    (f f' : h5file) (conv : value → option value) :
  attrs f !! "setup:software version" = None →
  meta_wf meta → gives_version meta = false →
  get_config_value_func dfn "setup" "software version" = Some conv →
  (∀ s, conv (VStr s) = Some (VStr s)) →
  store_metadata dfn py_format bytes_decode meta true f = (f', Ok tt) →
  attrs f' !! "setup:software version"
  = Some (VStr ("dclab " +:+ version dfn)).
Proof.
  intros Hattr [Hwf Hin] Hgives Hconv Hstr.
  unfold store_metadata, bind. rewrite check_metadata_ok.
  destruct (check_metadata dfn meta f).2 as [[]|e]; [|done].
  unfold gets, brand_version.
  rewrite bool_decide_eq_false_2 by (rewrite Hattr; by intros [? ?]).
  simpl negb. rewrite orb_true_l.
  assert (Hold : dict_get "setup" meta ≫= dict_get "software version" = None).
  { unfold gives_version, dict_mem in Hgives.
    destruct (dict_get "setup" meta) as [setup|]; [|done]. simpl.
    destruct (dict_get "software version" setup) eqn:Hv; [|done].
    by rewrite bool_decide_eq_true_2 in Hgives. }
  rewrite Hold.
  set (meta1 := if negb (dict_mem "setup" meta)
                then dict_set "setup" [] meta else meta).
  assert (Hwf1 : dict_wf meta1 ∧ Forall (λ sd, dict_wf sd.2) meta1).
  { unfold meta1. destruct (negb (dict_mem "setup" meta)); [|done]. split.
    - by apply dict_set_wf.
    - apply (dict_set_Forall dict_wf); [done|]. apply NoDup_nil_2. }
  destruct Hwf1 as [Hwf1 Hin1].
  set (setup0 := default [] (dict_get "setup" meta1)).
  assert (Hsetup0 : dict_wf setup0).
  { unfold setup0. destruct (dict_get "setup" meta1) as [s0|] eqn:Hs;
      [|apply NoDup_nil_2].
    rewrite Forall_forall in Hin1.
    apply (Hin1 ("setup", s0)). by apply dict_get_Some. }
  intros Hw.
  eapply (write_metadata_version dfn bytes_decode _ _ f f');
    [done|apply Hstr| | | |exact Hw].
  - split.
    + by apply dict_set_wf.
    + apply (dict_set_Forall dict_wf); [done|]. by apply dict_set_wf.
  - apply dict_get_set_eq.
  - apply dict_get_set_eq.
Qed.

(** X15: nothing is rolled back when a converter raises: for a defined
    section whose keys are defined, the attributes of the keys before
    the one whose value the converter refuses are written, and the call
    raises with them in the container. *)
Theorem store_metadata_no_rollback (sec ck : string) (v : value)
    (pre post : dict value) (conv : value → option value) (f f1 : h5file) :
  sec ≠ "user" → sec ∈ CFG_METADATA dfn →
  (∀ c, c ∈ (pre ++ (ck, v) :: post).*1 → config_key_exists dfn sec c = true) →
  get_config_value_func dfn sec ck = Some conv →
  decoded bytes_decode v = Some v → conv v = None →
  for_ pre (write_attribute dfn bytes_decode sec) f = (f1, Ok tt) →
  store_metadata dfn py_format bytes_decode
    [(sec, pre ++ (ck, v) :: post)] false f
  = (f1, Raise (ConversionFailed sec ck)).
Proof.
  intros Huser Hsec Hkeys Hconv Hv Hrefused Hpre.
  unfold store_metadata, bind.
  assert (Hcheck : check_metadata dfn [(sec, pre ++ (ck, v) :: post)] f
                   = (f, Ok tt)).
  { unfold check_metadata. rewrite for_cons. cbv beta iota.
    rewrite bool_decide_eq_false_2 by done.
    rewrite bool_decide_eq_true_2 by done.
    change (negb true) with false. cbv beta iota.
    assert (Hloop : ∀ keys : dict value,
      (∀ c, c ∈ keys.*1 → config_key_exists dfn sec c = true) →
      for_ keys (λ '(ck0, _),
        if negb (config_key_exists dfn sec ck0)
        then raise (KeyNotDefined sec ck0) else ret tt) f = (f, Ok tt)).
    { induction keys as [|[c x] keys IH]; intros Hall; [done|].
      rewrite for_cons, (Hall c) by (apply list_elem_of_here). simpl.
      apply IH. intros c' Hc'. apply Hall. by apply list_elem_of_further. }
    by rewrite Hloop. }
  rewrite Hcheck. unfold gets, write_metadata.
  rewrite for_cons, for_app, Hpre, for_cons.
  unfold write_attribute at 1, bind.
  assert (Hval : (match v with
                  | VBytes b => match bytes_decode b with
                                | Some s => ret (VStr s)
                                | None => raise UnicodeError
                                end
                  | _ => ret v
                  end) f1 = (f1, Ok v)).
  { destruct v as [s|b|z]; try done. simpl in Hv.
    destruct (bytes_decode b); simpl in Hv; [|done]. done. }
  rewrite Hval, bool_decide_eq_false_2 by done.
  by rewrite Hconv, Hrefused.
Qed.

End MetadataValues.

(** ** [store_feature]: features without a rule, traces, and the logs *)

Section FeatureWrites.

Context (dfn : definitions) (self : RTDCWriter).

(** X16: a feature that dclab defines but for which [store_feature] has
    no rule raises [NotImplementedError] only after the group of events
    and the deletion of mode [replace]: what was stored under the
    feature is gone then, and nothing was written. *)
Theorem store_feature_no_rule (feat : string) (data : feature_data)
    (f : h5file) (ev : group) :
  feature_exists dfn feat = true →
  scalar_feature_exists dfn feat = false →
  feat ∉ ["contour"; "image"; "image_bg"; "mask"; "trace"] →
  group_at "events" (root f) = Some ev →
  store_feature dfn self feat data f
  = (with_events f (if bool_decide (mode self = replace)
                    then delete feat ev else ev),
     Raise (NoRuleToStore feat)).
Proof.
  intros Hfeat Hscalar Hrule Hev.
  assert (Htrace : feat ≠ "trace") by (intros ->; apply Hrule; set_solver).
  assert (Hwrite : ∀ ev0 : group,
    write_feature dfn self feat data ev0 = (ev0, Raise (NoRuleToStore feat))).
  { intros ev0. unfold write_feature. rewrite Hscalar.
    rewrite bool_decide_eq_false_2
      by (intros ->; apply Hrule; set_solver).
    rewrite bool_decide_eq_false_2
      by (intros Hin; apply Hrule; set_solver).
    by rewrite bool_decide_eq_false_2. }
  apply (store_feature_in_events dfn self feat data f ev); [done..|].
  unfold bind. case_bool_decide as Hmode.
  - destruct (ev !! feat) as [x|] eqn:Hx.
    + rewrite replace_feature_deletes by done. apply Hwrite.
    + rewrite replace_feature_keeps by (by right).
      rewrite delete_id by done. apply Hwrite.
  - rewrite replace_feature_keeps by (by left). apply Hwrite.
Qed.

Lemma trace_entry_group_at (ev tg : group) (tr : string) :
  group_at "trace" ev = Some tg → trace_entry ev tr = tg !! tr.
Proof.
  unfold group_at, trace_entry.
  destruct (ev !! "trace") as [[| |sub]|]; intros [= <-]; [done|].
  by rewrite lookup_empty.
Qed.

(** The loop of mode [replace] over the names of the traces deletes
    these traces and no other. *)
Lemma replace_traces_deleted (keys : list string) :
  ∀ ev tg : group,
    ev !! "trace" = Some (NGroup tg) →
    ∃ tg1 : group,
      for_ keys (λ tr_name,
        in_group "trace" (
          let* there := contains tr_name in
          if there then del tr_name else ret tt)) ev
      = (<["trace" := NGroup tg1]> ev, Ok tt)
      ∧ (∀ k, k ∈ keys → tg1 !! k = None)
      ∧ (∀ k, k ∉ keys → tg1 !! k = tg !! k)
      ∧ (∀ k, tg !! k = None → tg1 !! k = None).
Proof.
  induction keys as [|key keys IH]; intros ev tg Hev.
  - exists tg. simpl. unfold ret. rewrite insert_id by done.
    split_and!; [done| |done..]. intros k Hk. by apply elem_of_nil in Hk.
  - rewrite for_cons. unfold in_group at 1. rewrite Hev.
    unfold bind, contains, gets.
    set (tg0 := (if bool_decide (is_Some (tg !! key))
                 then del key else ret tt) tg).
    assert (Htg0 : tg0.2 = Ok tt ∧ tg0.1 !! key = None
                   ∧ (∀ k, k ≠ key → tg0.1 !! k = tg !! k)
                   ∧ (∀ k, tg !! k = None → tg0.1 !! k = None)).
    { unfold tg0. case_bool_decide as Hthere; simpl.
      - split_and!; [done|apply lookup_delete_eq| |].
        + intros k Hk. by rewrite lookup_delete_ne.
        + intros k Hk. destruct (decide (key = k)) as [->|Hne].
          * apply lookup_delete_eq.
          * by rewrite lookup_delete_ne.
      - split_and!; [done| |done..].
        destruct (tg !! key) eqn:Hkey; [|done]. by destruct Hthere. }
    clearbody tg0. destruct tg0 as [tg' r]. simpl in Htg0.
    destruct Htg0 as (-> & Hkey & Hother & Hnone).
    destruct (IH (<["trace" := NGroup tg']> ev) tg') as
      (tg1 & Hloop & Hin1 & Hout1 & Hnone1); [apply lookup_insert_eq|].
    exists tg1. split_and!;
      [etrans; [exact Hloop|]; by rewrite insert_insert_eq| | |].
    + intros k [->|Hk]%elem_of_cons; [|by apply Hin1].
      by apply Hnone1.
    + intros k Hk. apply not_elem_of_cons in Hk as [Hne Hk].
      rewrite Hout1 by done. by apply Hother.
    + intros k Hk. by apply Hnone1, Hnone.
Qed.

Lemma replace_feature_traces_deleted (traces : dict ndarray) (ev tg : group) :
  group_at "trace" ev = Some tg →
  ∃ ev1 tg1 : group,
    replace_feature self "trace" (TraceDict traces) ev = (ev1, Ok tt)
    ∧ group_at "trace" ev1 = Some tg1
    ∧ (mode self = replace → ∀ k, k ∈ traces.*1 → tg1 !! k = None)
    ∧ (∀ k, k ∉ traces.*1 → tg1 !! k = tg !! k)
    ∧ (∀ k, tg !! k = None → tg1 !! k = None).
Proof.
  intros Hev. unfold replace_feature, bind, contains, gets.
  destruct (bool_decide (is_Some (ev !! "trace"))
            && bool_decide (mode self = replace)) eqn:Hcond.
  - apply andb_prop in Hcond as [Hin%bool_decide_eq_true_1 _].
    rewrite bool_decide_eq_true_2 by done. simpl.
    assert (Hg : ev !! "trace" = Some (NGroup tg)).
    { unfold group_at in Hev. destruct Hin as [nd Hnd]. rewrite Hnd in Hev.
      destruct nd; try done. by injection Hev as ->. }
    destruct (replace_traces_deleted traces.*1 ev tg Hg)
      as (tg1 & Hloop & Hin1 & Hout1 & Hnone1).
    exists (<["trace" := NGroup tg1]> ev), tg1.
    split_and!; [done|apply group_at_insert|by intros _|done..].
  - exists ev, tg. split_and!; [done..| |done|done].
    intros Hmode k _.
    rewrite (bool_decide_eq_true_2 (mode self = replace)) in Hcond by done.
    rewrite andb_true_r in Hcond. apply bool_decide_eq_false_1 in Hcond.
    unfold group_at in Hev. destruct (ev !! "trace") as [nd|] eqn:Hnd.
    + destruct Hcond. by exists nd.
    + injection Hev as <-. apply lookup_empty.
Qed.

(** The loop over the traces stores each of them under its name in the
    group of the traces, which keeps its other entries. *)
Lemma store_traces_stored (pre : dict ndarray) :
  ∀ ev tg : group,
    group_at "trace" ev = Some tg →
    NoDup pre.*1 →
    Forall (λ p, p.1 ∈ FLUOR_TRACES dfn ∧ wf_ndarray p.2
                 ∧ storable (np_atleast_2d p.2) ∧ tg !! p.1 = None) pre →
    ∃ ev' tg' : group,
      for_ pre (store_trace dfn self) ev = (ev', Ok tt)
      ∧ group_at "trace" ev' = Some tg'
      ∧ (∀ tr a, (tr, a) ∈ pre →
           tg' !! tr = Some (NDataset (created self (np_atleast_2d a) None)))
      ∧ (∀ k, k ∉ pre.*1 → tg' !! k = tg !! k).
Proof.
  induction pre as [|[tr_name tr_data] pre IH]; intros ev tg Hev Hnd Hpre.
  - exists ev, tg. split_and!; [done..| |done].
    intros tr a Hin. by apply elem_of_nil in Hin.
  - simpl in Hnd. apply NoDup_cons in Hnd as [Hfirst Hnd].
    apply Forall_cons in Hpre as [(Hknown & Hwf & Hst & Hnew) Hpre].
    simpl in Hknown, Hwf, Hst, Hnew. rewrite for_cons.
    unfold store_trace at 1.
    rewrite bool_decide_eq_true_2 by done.
    change (negb true) with false. cbv iota.
    erewrite require_in_group;
      [|exact Hev
       |by apply write_ndarray_fresh; [apply np_atleast_2d_wf|..]].
    set (c := created self (np_atleast_2d tr_data) None).
    destruct (IH (<["trace" := NGroup (<[tr_name := NDataset c]> tg)]> ev)
                (<[tr_name := NDataset c]> tg))
      as (ev' & tg' & Hloop & Hat & Hin' & Hout'); [apply group_at_insert|done| |].
    { rewrite Forall_forall in Hpre. apply Forall_forall.
      intros [k a] Hk. destruct (Hpre _ Hk) as (? & ? & ? & ?).
      split_and!; [done..|]. simpl in *. rewrite lookup_insert_ne; [done|].
      intros ->. apply Hfirst, list_elem_of_fmap. by exists (k, a). }
    exists ev', tg'. split_and!; [done..| |].
    + intros tr a [Heq|Hin]%elem_of_cons; [|by apply Hin'].
      injection Heq as -> ->. rewrite Hout' by done. apply lookup_insert_eq.
    + intros k Hk. simpl in Hk. apply not_elem_of_cons in Hk as [Hne Hk].
      rewrite Hout' by done. by rewrite lookup_insert_ne.
Qed.

(** X17: the traces are stored one by one under [events/trace]: with
    names of [FLUOR_TRACES] that are not stored yet, or in mode
    [replace] whatever is stored, [store_feature] returns, each trace
    given is then stored as a new array of at least two dimensions, and
    the traces that are not given are as before. *)
Theorem store_feature_traces (traces : dict ndarray) (f : h5file)
    (ev tg : group) :
  feature_exists dfn "trace" = true →
  scalar_feature_exists dfn "trace" = false →
  group_at "events" (root f) = Some ev →
  group_at "trace" ev = Some tg →
  dict_wf traces →
  Forall (λ p, p.1 ∈ FLUOR_TRACES dfn ∧ wf_ndarray p.2
               ∧ storable (np_atleast_2d p.2)) traces →
  mode self = replace ∨ Forall (λ p, tg !! p.1 = None) traces →
  ∃ f' : h5file,
    store_feature dfn self "trace" (TraceDict traces) f = (f', Ok tt)
    ∧ (∀ tr a, (tr, a) ∈ traces →
         stored_trace f' tr
         = Some (NDataset (created self (np_atleast_2d a) None)))
    ∧ (∀ k, k ∉ traces.*1 → stored_trace f' k = tg !! k).
Proof.
  intros Hfeat Hscalar Hev Htg Hwf Hgood Hfree.
  destruct (replace_feature_traces_deleted traces ev tg Htg)
    as (ev1 & tg1 & Hrep & Htg1 & Hdel & Hout1 & Hnone1).
  destruct (store_traces_stored traces ev1 tg1 Htg1 Hwf)
    as (ev' & tg' & Hloop & Htg' & Hin' & Hout').
  { rewrite Forall_forall in Hgood. apply Forall_forall.
    intros [k a] Hk. destruct (Hgood _ Hk) as (? & ? & ?).
    split_and!; [done..|]. simpl. destruct Hfree as [Hmode|Hnew].
    - apply Hdel; [done|]. apply list_elem_of_fmap. by exists (k, a).
    - rewrite Forall_forall in Hnew. by apply Hnone1, (Hnew (k, a)). }
  exists (with_events f ev'). split_and!.
  - apply (store_feature_in_events dfn self _ _ f ev); [done..|].
    unfold bind. rewrite Hrep. by rewrite write_feature_trace.
  - intros tr a Hin. unfold stored_trace, with_events. simpl.
    rewrite lookup_insert_eq, (trace_entry_group_at ev' tg') by done.
    by apply Hin'.
  - intros k Hk. unfold stored_trace, with_events. simpl.
    rewrite lookup_insert_eq, (trace_entry_group_at ev' tg') by done.
    rewrite Hout' by done. by apply Hout1.
Qed.

Lemma store_feature_events_refused (feat : string) (data : feature_data)
    (f : h5file) :
  group_at "events" (root f) = None →
  ∃ e, store_feature dfn self feat data f = (f, Raise e).
Proof.
  intros Hev. unfold store_feature, on_root.
  destruct (feature_exists dfn feat); simpl; [|by eexists].
  rewrite require_in_group_refused by done. destruct f. by eexists.
Qed.

Lemma store_log_in_logs (name : string) (lines : text_lines) (f : h5file)
    (lg lg' : group) (r : result unit) :
  group_at "logs" (root f) = Some lg →
  write_text self name lines lg = (lg', r) →
  store_log self name lines f = (with_logs f lg', r).
Proof.
  intros Hlg Hbody. unfold store_log, on_root.
  by rewrite (require_in_group _ _ _ lg lg' r).
Qed.

Lemma store_log_refused (name : string) (lines : text_lines) (f : h5file) :
  group_at "logs" (root f) = None →
  store_log self name lines f = (f, Raise (Engine IncompatibleObject)).
Proof.
  intros Hlg. unfold store_log, on_root.
  rewrite require_in_group_refused by done. by destruct f.
Qed.

Lemma group_at_other (name other : string) (g : group) (nd : node) :
  name ≠ other → group_at name (<[other := nd]> g) = group_at name g.
Proof. intros Hne. unfold group_at. by rewrite lookup_insert_ne. Qed.

(** X18: the features and the logs are written to groups of their own,
    so that the order of the two calls does not matter: with link names
    for the feature, its traces and the log, a feature and then a log
    are stored exactly when the log and then the feature are, and the
    container is the same after both. *)
Theorem store_feature_and_log_any_order (feat : string)
    (data : feature_data) (name : string) (lines : text_lines)
    (f f2 : h5file) :
  link_name feat → plain_names data → link_name name →
  (store_feature dfn self feat data;;; store_log self name lines) f
    = (f2, Ok tt)
  ↔ (store_log self name lines;;; store_feature dfn self feat data) f
    = (f2, Ok tt).
Proof.
  intros _ _ _. unfold bind.
  destruct (feature_exists dfn feat) eqn:Hfeat.
  2: { unfold store_feature at 1. rewrite Hfeat. simpl.
       destruct (store_log self name lines f) as [f1 [[]|e]]; [|done].
       unfold store_feature. by rewrite Hfeat. }
  destruct (group_at "events" (root f)) as [ev|] eqn:Hev.
  2: { destruct (store_feature_events_refused feat data f Hev) as [e ->].
       destruct (group_at "logs" (root f)) as [lg|] eqn:Hlg.
       - destruct (write_text self name lines lg) as [lg' r] eqn:Hbody.
         rewrite (store_log_in_logs name lines f lg lg' r) by done.
         destruct r as [[]|e']; [|done].
         destruct (store_feature_events_refused feat data (with_logs f lg'))
           as [e' ->]; [|done].
         unfold with_logs. simpl. by rewrite group_at_other.
       - by rewrite store_log_refused. }
  destruct ((replace_feature self feat data;;;
             write_feature dfn self feat data) ev) as [ev' r] eqn:Hbody.
  rewrite (store_feature_in_events dfn self feat data f ev ev' r) by done.
  destruct (group_at "logs" (root f)) as [lg|] eqn:Hlg.
  - destruct (write_text self name lines lg) as [lg' r'] eqn:Htext.
    rewrite (store_log_in_logs name lines f lg lg' r') by done.
    assert (Hsame : with_logs (with_events f ev') lg'
                    = with_events (with_logs f lg') ev').
    { unfold with_logs, with_events. simpl. f_equal.
      by apply insert_insert_ne. }
    destruct r as [[]|e].
    + rewrite (store_log_in_logs name lines (with_events f ev') lg lg' r')
        by (unfold with_events; simpl; by rewrite ?group_at_other).
      destruct r' as [[]|e'].
      * rewrite (store_feature_in_events dfn self feat data
                   (with_logs f lg') ev ev' (Ok tt))
          by (unfold with_logs; simpl; by rewrite ?group_at_other).
        by rewrite Hsame.
      * done.
    + destruct r' as [[]|e']; [|done].
      by rewrite (store_feature_in_events dfn self feat data
                    (with_logs f lg') ev ev' (Raise e))
        by (unfold with_logs; simpl; by rewrite ?group_at_other).
  - rewrite (store_log_refused name lines f) by done.
    destruct r as [[]|e]; [|done].
    by rewrite (store_log_refused name lines (with_events f ev'))
      by (unfold with_events; simpl; by rewrite group_at_other).
Qed.

End FeatureWrites.

(** ** The further properties on the data of the examples *)

Lemma write_ndarray_in_batches_witness :
  (write_ndarray sample_writer "deform" sample_deform_1 None;;;
   write_ndarray sample_writer "deform" sample_deform_2 None) ∅
  = write_ndarray sample_writer "deform"
      (np_concatenate sample_deform_1 sample_deform_2) None ∅
  ∧ write_ndarray sample_writer "deform"
      (np_concatenate sample_deform_1 sample_deform_2) None ∅
    = (<["deform" := NDataset (created sample_writer
          (np_concatenate sample_deform_1 sample_deform_2) None)]> ∅, Ok tt).
Proof.
  apply (write_ndarray_in_batches sample_writer "deform" sample_deform_1
           sample_deform_2 None ∅).
  - reflexivity.
  - reflexivity.
  - split; [discriminate|]. repeat constructor.
  - discriminate.
  - reflexivity.
  - reflexivity.
  - reflexivity.
Defined.

Lemma write_ndarray_no_event_witness :
  write_ndarray sample_writer "image" sample_no_event None
    (<["image" := NDataset sample_stored_frames]> ∅)
  = (<["image" := NDataset sample_stored_frames]> ∅, Ok tt).
Proof.
  apply (write_ndarray_no_event sample_writer "image" sample_no_event None
           (<["image" := NDataset sample_stored_frames]> ∅)
           sample_stored_frames [7]).
  - reflexivity.
  - reflexivity.
  - reflexivity.
  - vm_compute. reflexivity.
  - discriminate.
  - exact I.
Defined.

Lemma write_ndarray_without_axis_witness :
  ∃ e : error,
    write_ndarray sample_writer "deform" sample_number None ∅
    = (∅, Raise e).
Proof.
  apply (write_ndarray_without_axis sample_writer "deform" sample_number
           None ∅).
  reflexivity.
Defined.

Lemma store_feature_append_keeps_witness :
  ∃ d' : dataset,
    store_feature sample_dfn sample_writer "deform" (Array sample_deform_2)
      (with_events empty_file (<["deform" := NDataset sample_stored_deform]> ∅))
    = (with_events
         (with_events empty_file
            (<["deform" := NDataset sample_stored_deform]> ∅))
         (<["deform" := NDataset d']>
            (<["deform" := NDataset sample_stored_deform]> ∅)), Ok tt)
    ∧ ds_shape d' = [3 + 2]
    ∧ take 3 (ds_flat d') = [1; 2; 3]%Z
    ∧ drop 3 (ds_flat d') = [4; 5]%Z
    ∧ ds_dtype d' = np_other "int64".
Proof.
  apply (store_feature_append_keeps sample_dfn sample_writer "deform"
           sample_deform_2
           (with_events empty_file
              (<["deform" := NDataset sample_stored_deform]> ∅))
           (<["deform" := NDataset sample_stored_deform]> ∅)
           sample_stored_deform 3 2).
  - discriminate.
  - reflexivity.
  - reflexivity.
  - reflexivity.
  - reflexivity.
  - reflexivity.
  - reflexivity.
  - reflexivity.
  - reflexivity.
  - exact I.
  - reflexivity.
Defined.

Lemma write_image_grayscale_tags_witness :
  ∃ d : dataset,
    sample_mask_events !! "mask" = Some (NDataset d) ∧ image_tags d.
Proof.
  apply (write_image_grayscale_tags sample_replacer "mask" sample_masks ∅
           sample_mask_events).
  vm_compute. reflexivity.
Defined.

Lemma write_image_grayscale_in_batches_witness :
  ∃ d : dataset,
    (write_image_grayscale sample_writer "mask" sample_masks;;;
     write_image_grayscale sample_writer "mask" sample_frame) ∅
    = (<["mask" := NDataset d]> ∅, Ok tt)
    ∧ ds_shape d = [2 + 1; 2; 2]
    ∧ ds_flat d = [255; 0; 0; 255; 255; 255; 0; 0; 0; 255; 255; 0]%Z
    ∧ image_tags d.
Proof.
  apply (write_image_grayscale_in_batches sample_writer "mask" sample_masks
           sample_frame ∅).
  - reflexivity.
  - reflexivity.
  - split; [discriminate|]. repeat constructor.
  - reflexivity.
  - reflexivity.
  - reflexivity.
Defined.

Lemma write_ragged_events_stored_witness :
  ∃ grp' : group,
    write_ragged sample_writer "contour"
      (ArrayList [sample_contour 3; sample_contour 7]) ∅
    = (<["contour" := NGroup grp']> ∅, Ok tt)
    ∧ grp' !! "0" = Some (NDataset (stored_event sample_writer
                                      (sample_contour 3)))
    ∧ grp' !! "1" = Some (NDataset (stored_event sample_writer
                                      (sample_contour 7))).
Proof.
  destruct (write_ragged_events_stored sample_writer "contour"
              [sample_contour 3; sample_contour 7] ∅ ∅ 0)
    as (grp' & Hcall & Hstored & _).
  - reflexivity.
  - apply dense_empty.
  - repeat constructor; (discriminate || lia).
  - exists grp'. split_and!; [exact Hcall| |].
    + apply (Hstored 0). reflexivity.
    + apply (Hstored 1). reflexivity.
Defined.

Lemma write_text_not_encodable_witness :
  write_text sample_writer "log" (Lines [short_line; surrogate_line]) ∅
  = (∅, Raise UnicodeError).
Proof.
  apply (write_text_not_encodable sample_writer "log"
           (Lines [short_line; surrogate_line]) ∅ [0xD800%N]).
  - apply list_elem_of_further, list_elem_of_here.
  - reflexivity.
Defined.

Lemma write_text_no_line_witness :
  write_text sample_writer "log" (Lines []) ∅
  = (<["log" := NText (created_text sample_writer [])]> ∅, Ok tt)
  ∧ write_text sample_writer "log" (Lines [])
      (<["log" := NText (created_text sample_writer [[x61]])]> ∅)
    = (<["log" := NText (created_text sample_writer [[x61]])]> ∅, Ok tt)
  ∧ td_lines (created_text sample_writer [[]]) = [replicate 100 x00].
Proof.
  destruct (write_text_no_line sample_writer "log" ∅) as (Hnew & _ & Hempty).
  destruct (write_text_no_line sample_writer "log"
              (<["log" := NText (created_text sample_writer [[x61]])]> ∅))
    as (_ & Hthere & _).
  split_and!.
  - apply Hnew. reflexivity.
  - apply (Hthere (created_text sample_writer [[x61]])).
    + discriminate.
    + reflexivity.
    + exact I.
  - apply Hempty. reflexivity.
Defined.

Lemma store_log_in_order_witness :
  ∃ t : text_dataset,
    (store_log sample_writer "log" (Lines [short_line]);;;
     store_log sample_writer "log" (Lines [long_line])) empty_file
    = (with_logs empty_file (<["log" := NText t]> ∅), Ok tt)
    ∧ td_width t = 100
    ∧ length (td_lines t) = 2
    ∧ td_lines t !! 0 = Some ([x61] ++ replicate (td_width t - 1) x00)
    ∧ td_lines t !! 1 = Some (fit (td_width t) (replicate 101 x78)).
Proof.
  destruct (store_log_in_order sample_writer "log" (Lines [short_line])
              (Lines [long_line]) empty_file ∅ [[x61]] [replicate 101 x78])
    as (t & Hcall & Hwidth & Hlen & Hall & Hfirst).
  - split_and!; [discriminate|discriminate|reflexivity].
  - discriminate.
  - reflexivity.
  - reflexivity.
  - reflexivity.
  - reflexivity.
  - exists t. split_and!; [exact Hcall|exact Hwidth|exact Hlen| |].
    + apply (Hfirst 0 [x61]). reflexivity.
    + apply (Hall 1 (replicate 101 x78)). reflexivity.
Defined.

Lemma store_metadata_other_attributes_witness :
  attrs (store_metadata sample_dfn sample_format sample_decode
           [("experiment", [("sample", VStr "blood")])] true
           {| attrs := <["user:note" := VStr "kept"]> ∅; root := ∅ |}).1
    !! "user:note"
  = Some (VStr "kept").
Proof.
  rewrite (store_metadata_other_attributes sample_dfn sample_format
             sample_decode [("experiment", [("sample", VStr "blood")])] true
             {| attrs := <["user:note" := VStr "kept"]> ∅; root := ∅ |}
             "user:note").
  - reflexivity.
  - discriminate.
  - intros sec keys ck [Heq|Hin]%elem_of_cons;
      [|by apply elem_of_nil in Hin].
    injection Heq as -> ->.
    intros [->|Hin]%elem_of_cons; [discriminate|].
    by apply elem_of_nil in Hin.
Defined.

Lemma store_metadata_user_section_witness :
  ∃ f' : h5file,
    store_metadata sample_dfn sample_format sample_decode
      [("user", [("note", VStr "x"); ("raw", VBytes [x61])])] false empty_file
    = (f', Ok tt)
    ∧ attrs f' !! "user:note" = Some (VStr "x")
    ∧ attrs f' !! "user:raw" = Some (VStr "a").
Proof.
  set (keys := [("note", VStr "x"); ("raw", VBytes [x61])]).
  set (f' := (store_metadata sample_dfn sample_format sample_decode
                [("user", keys)] false empty_file).1).
  assert (Hcall : store_metadata sample_dfn sample_format sample_decode
                    [("user", keys)] false empty_file = (f', Ok tt))
    by (vm_compute; reflexivity).
  destruct (store_metadata_user_section sample_dfn sample_format
              sample_decode keys empty_file) as (_ & Hkeys).
  - apply (bool_decide_unpack _). vm_compute. exact I.
  - exists f'. split_and!; [exact Hcall| |].
    + destruct (Hkeys f' Hcall "note" (VStr "x")) as (v' & Hv & Hattr);
        [reflexivity|].
      injection Hv as <-. exact Hattr.
    + destruct (Hkeys f' Hcall "raw" (VBytes [x61])) as (v' & Hv & Hattr);
        [reflexivity|].
      injection Hv as <-. exact Hattr.
Defined.

Lemma store_metadata_first_version_witness :
  attrs (store_metadata sample_dfn sample_format sample_decode
           [("experiment", [("sample", VStr "blood")])] true empty_file).1
    !! "setup:software version"
  = Some (VStr "dclab 0.32.0").
Proof.
  apply (store_metadata_first_version sample_dfn sample_format sample_decode
           [("experiment", [("sample", VStr "blood")])] empty_file
           (store_metadata sample_dfn sample_format sample_decode
              [("experiment", [("sample", VStr "blood")])] true empty_file).1
           sample_text_converter).
  - reflexivity.
  - split; repeat constructor; by intros ?%elem_of_nil.
  - reflexivity.
  - reflexivity.
  - reflexivity.
  - vm_compute. reflexivity.
Defined.

Lemma store_metadata_no_rollback_witness :
  store_metadata sample_dfn sample_format sample_decode
    [("setup", [("software version", VStr "1.0");
                ("channel width", VStr "wide")])] false empty_file
  = ({| attrs := <["setup:software version" := VStr "1.0"]> ∅; root := ∅ |},
     Raise (ConversionFailed "setup" "channel width")).
Proof.
  apply (store_metadata_no_rollback sample_dfn sample_format sample_decode
           "setup" "channel width" (VStr "wide")
           [("software version", VStr "1.0")] [] sample_number_converter
           empty_file).
  - discriminate.
  - apply (bool_decide_unpack _). vm_compute. exact I.
  - intros c [->|Hin]%elem_of_cons; [reflexivity|].
    apply elem_of_cons in Hin as [->|Hin]; [reflexivity|].
    by apply elem_of_nil in Hin.
  - reflexivity.
  - reflexivity.
  - reflexivity.
  - reflexivity.
Defined.

Lemma store_feature_no_rule_witness :
  store_feature later_dfn sample_replacer "qpi_pha" (Array sample_frame)
    (with_events empty_file (<["qpi_pha" := NDataset sample_stored_frames]> ∅))
  = (with_events
       (with_events empty_file
          (<["qpi_pha" := NDataset sample_stored_frames]> ∅))
       (delete "qpi_pha" (<["qpi_pha" := NDataset sample_stored_frames]> ∅)),
     Raise (NoRuleToStore "qpi_pha")).
Proof.
  apply (store_feature_no_rule later_dfn sample_replacer "qpi_pha"
           (Array sample_frame)
           (with_events empty_file
              (<["qpi_pha" := NDataset sample_stored_frames]> ∅))
           (<["qpi_pha" := NDataset sample_stored_frames]> ∅)).
  - reflexivity.
  - reflexivity.
  - apply (bool_decide_unpack _). vm_compute. exact I.
  - reflexivity.
Defined.

Lemma store_feature_traces_witness :
  ∃ f' : h5file,
    store_feature sample_dfn sample_replacer "trace"
      (TraceDict [("fl1_raw", sample_trace)])
      (with_events empty_file sample_trace_events)
    = (f', Ok tt)
    ∧ stored_trace f' "fl1_raw"
      = Some (NDataset (created sample_replacer
                          (np_atleast_2d sample_trace) None))
    ∧ stored_trace f' "fl2_raw" = Some (NDataset sample_stored_frames).
Proof.
  destruct (store_feature_traces sample_dfn sample_replacer
              [("fl1_raw", sample_trace)]
              (with_events empty_file sample_trace_events)
              sample_trace_events sample_traces)
    as (f' & Hcall & Hgiven & Hother).
  - reflexivity.
  - reflexivity.
  - reflexivity.
  - reflexivity.
  - apply (bool_decide_unpack _). vm_compute. exact I.
  - repeat constructor; simpl; discriminate.
  - by left.
  - exists f'. split_and!; [exact Hcall| |].
    + apply Hgiven, list_elem_of_here.
    + rewrite (Hother "fl2_raw"); [reflexivity|].
      apply (bool_decide_unpack _). vm_compute. exact I.
Defined.

Lemma store_feature_and_log_any_order_witness :
  ∃ f2 : h5file,
    (store_feature sample_dfn sample_writer "deform" (Array sample_deform_1);;;
     store_log sample_writer "log" (Lines [short_line])) empty_file
    = (f2, Ok tt)
    ∧ (store_log sample_writer "log" (Lines [short_line]);;;
       store_feature sample_dfn sample_writer "deform" (Array sample_deform_1))
        empty_file
      = (f2, Ok tt).
Proof.
  set (f2 := ((store_feature sample_dfn sample_writer "deform"
                 (Array sample_deform_1);;;
               store_log sample_writer "log" (Lines [short_line]))
                empty_file).1).
  assert (Hfirst : (store_feature sample_dfn sample_writer "deform"
                      (Array sample_deform_1);;;
                    store_log sample_writer "log" (Lines [short_line]))
                     empty_file = (f2, Ok tt))
    by (vm_compute; reflexivity).
  exists f2. split; [exact Hfirst|].
  apply (store_feature_and_log_any_order sample_dfn sample_writer "deform"
           (Array sample_deform_1) "log" (Lines [short_line]) empty_file f2).
  - split_and!; [discriminate|discriminate|reflexivity].
  - exact I.
  - split_and!; [discriminate|discriminate|reflexivity].
  - exact Hfirst.
Defined.
